(** * Biosphere backend: authentication and authorisation

    A shallow embedding of [backend/auth.py], [backend/create_admin.py],
    the [User]/[Review]/[Question]/[Specialist] tables of
    [backend/models.py] and the [clear_all] handler of [backend/main.py],
    with the properties of the authentication subsystem proved over it.

    Handlers are state transformers over the relational store; a raised
    exception is a value.  The third-party libraries the handlers call
    (passlib's bcrypt context, python-jose) are interfaces with laws. *)

From Stdlib Require Import ZArith Lia Ascii String DecimalString DecimalZ DecimalPos DecimalN.
From stdpp Require Import base option list strings gmap.

Local Open Scope Z_scope.
Local Open Scope string_scope.

(** ** Python built-ins used by the handlers *)

Module Py.

(** [str(n)] for an [int]: decimal digits, a leading minus sign for
    negative numbers. *)
Definition str (n : Z) : string := NilZero.string_of_int (Z.to_int n).

(** Characters [str.strip] removes for [int()]: the ASCII ones among
    Python's whitespace (tab to carriage return, the four separators
    0x1c to 0x1f, space).  Non-ASCII whitespace and non-ASCII decimal
    digits are outside this model: [int_] rejects them. *)
Definition is_space (c : ascii) : bool :=
  let n := nat_of_ascii c in
  ((9 <=? n) && (n <=? 13) || (28 <=? n) && (n <=? 32))%nat.

Fixpoint lstrip (s : string) : string :=
  match s with
  | String c r => if is_space c then lstrip r else s
  | EmptyString => EmptyString
  end.

Fixpoint rstrip (s : string) : string :=
  match s with
  | String c r =>
      match rstrip r with
      | EmptyString => if is_space c then EmptyString else String c EmptyString
      | r' => String c r'
      end
  | EmptyString => EmptyString
  end.

Definition strip (s : string) : string := rstrip (lstrip s).

Definition digit_of (c : ascii) : option Z :=
  let n := nat_of_ascii c in
  if ((48 <=? n) && (n <=? 57))%nat then Some (Z.of_nat n - 48) else None.

(** The digit part of an integer literal: at least one digit, single
    underscores allowed between digits only.  [prev] records that the
    previous character was a digit. *)
Fixpoint digits (acc : Z) (prev : bool) (s : string) : option Z :=
  match s with
  | EmptyString => if prev then Some acc else None
  | String c r =>
      match digit_of c with
      | Some d => digits (10 * acc + d) true r
      | None =>
          if Ascii.eqb c "_" && prev then digits acc false r else None
      end
  end.

(** [s.startswith(p)] *)
Fixpoint startswith (s p : string) {struct p} : bool :=
  match p with
  | EmptyString => true
  | String a p' =>
      match s with
      | String b s' => Ascii.eqb a b && startswith s' p'
      | EmptyString => false
      end
  end.

(** [int(s)] for a [str] in base 10; [None] stands for [ValueError]. *)
Definition int_ (s : string) : option Z :=
  match strip s with
  | String "+" r => digits 0 false r
  | String "-" r => Z.opp <$> digits 0 false r
  | t => digits 0 false t
  end.

(** Every character of [s] passes [p]. *)
Fixpoint all_chars (p : ascii -> bool) (s : string) : bool :=
  match s with
  | EmptyString => true
  | String c r => p c && all_chars p r
  end.

(** [c] is an ASCII decimal digit. *)
Definition is_digit (c : ascii) : bool :=
  match digit_of c with Some _ => true | None => false end.

End Py.


(** ** Exceptions

    [HTTPException] is FastAPI's; the handlers raise it themselves.
    [ValueError] is what [int()] raises on a string that is no integer
    literal.  [UnknownHashError] is raised by passlib's context when no
    configured scheme recognises a stored hash, and [HandlerError cls]
    stands for an exception of class [cls] raised inside the bcrypt
    handler. *)

Inductive exception : Type :=
| HTTPException (status_code : Z) (detail : string)
                (headers : list (string * string))
| ValueError
| UnknownHashError
| HandlerError (cls : string).

Definition status_of (e : exception) : option Z :=
  match e with
  | HTTPException c _ _ => Some c
  | _ => None
  end.

(** ** models.py *)

Module User.
Record t : Type := Build
  { id : Z;
    name : string;
    email : string;
    phone : string;
    password_hash : string;
    is_admin : bool }.
End User.

Module Review.
Record t : Type := Build
  { id : Z;
    user_id : option Z;
    guest_name : option string;
    guest_phone : option string;
    rating : Z;
    text : string;
    created_at : Z;
    admin_reply : option string }.
End Review.

Module Question.
Record t : Type := Build
  { id : Z;
    user_id : option Z;
    guest_name : option string;
    guest_phone : option string;
    text : string;
    created_at : Z;
    admin_reply : option string;
    is_read : bool }.
End Question.

Module Specialist.
Record t : Type := Build
  { id : Z;
    name : string;
    position : string;
    specialization : option string;
    workplace : option string;
    education : option string;
    extra_qual : option string;
    photo : option string;
    created_at : Z;
    updated_at : Z }.
End Specialist.

(** Attribute assignments on a loaded [User]. *)
Definition set_name (v : string) (u : User.t) : User.t :=
  {| User.id := User.id u; User.name := v; User.email := User.email u;
     User.phone := User.phone u; User.password_hash := User.password_hash u;
     User.is_admin := User.is_admin u |}.

Definition set_phone (v : string) (u : User.t) : User.t :=
  {| User.id := User.id u; User.name := User.name u;
     User.email := User.email u; User.phone := v;
     User.password_hash := User.password_hash u;
     User.is_admin := User.is_admin u |}.

Definition set_password_hash (v : string) (u : User.t) : User.t :=
  {| User.id := User.id u; User.name := User.name u;
     User.email := User.email u; User.phone := User.phone u;
     User.password_hash := v; User.is_admin := User.is_admin u |}.

Definition set_is_admin (v : bool) (u : User.t) : User.t :=
  {| User.id := User.id u; User.name := User.name u;
     User.email := User.email u; User.phone := User.phone u;
     User.password_hash := User.password_hash u; User.is_admin := v |}.

(** ** The relational store and an ORM session over it

    A table is the list of its rows in the order the engine returns
    them; [.first()] of a filtered query is the first row of that list
    that passes the filter. *)

Record Db : Type := mkDb
  { users : list User.t;
    reviews : list Review.t;
    questions : list Question.t;
    specialists : list Specialist.t }.

(** What a [Session] sees ([working]: flushed and pending changes) and
    what has been committed.  [commit] publishes the working state,
    [rollback] and [close] drop it. *)
Record Session : Type := mkSession
  { committed : Db;
    working : Db }.

Definition SessionLocal (db : Db) : Session :=
  {| committed := db; working := db |}.

(** State and exception monad of the handlers. *)
Definition M (A : Type) : Type := Session -> (exception + A) * Session.

Definition ret {A} (a : A) : M A := fun s => (inr a, s).

Definition bind {A B} (m : M A) (k : A -> M B) : M B :=
  fun s =>
    match m s with
    | (inr a, s') => k a s'
    | (inl e, s') => (inl e, s')
    end.

Definition raise {A} (e : exception) : M A := fun s => (inl e, s).

(** A library call that may raise. *)
Definition call {A} (r : exception + A) : M A := fun s => (r, s).

Declare Scope py_scope.
Delimit Scope py_scope with py.
Notation "'let*' x := m 'in' k" := (bind m (fun x => k))
  (at level 10, x name, m at level 99, k at level 200) : py_scope.
Notation "m ;; k" := (bind m (fun _ => k))
  (at level 100, k at level 200, right associativity) : py_scope.
Local Open Scope py_scope.

(** [db.query(User).filter(p).first()] *)
Definition query_user_first (p : User.t -> bool) : M (option User.t) :=
  fun s => (inr (List.find p (users (working s))), s).

(** Primary key given to an inserted row: one more than the largest
    key in the table (1 for an empty table). *)
Definition next_id (us : list User.t) : Z :=
  1 + foldr Z.max 0 (User.id <$> us).

Definition set_users (us : list User.t) (d : Db) : Db :=
  {| users := us; reviews := reviews d;
     questions := questions d; specialists := specialists d |}.

(** [db.add(row)], the row coming back with its key as after
    [db.refresh(row)]; [row] is the object without its key. *)
Definition db_add (row : Z -> User.t) : M User.t :=
  fun s =>
    let u := row (next_id (users (working s))) in
    (inr u,
     {| committed := committed s;
        working := set_users (users (working s) ++ [u]) (working s) |}).

(** Attribute assignment on a loaded row: the row with this key is
    replaced by its image under [f]. *)
Definition update_row (key : Z) (f : User.t -> User.t) (us : list User.t)
  : list User.t :=
  (fun u => if (User.id u =? key)%Z then f u else u) <$> us.

Definition db_set (key : Z) (f : User.t -> User.t) : M unit :=
  fun s =>
    (inr tt,
     {| committed := committed s;
        working := set_users (update_row key f (users (working s))) (working s) |}).

Definition db_commit : M unit :=
  fun s => (inr tt, {| committed := working s; working := working s |}).

Definition db_rollback : M unit :=
  fun s => (inr tt, {| committed := committed s; working := committed s |}).

(** [db.close()]: what was not committed is gone. *)
Definition db_close : M unit :=
  fun s => (inr tt, {| committed := committed s; working := committed s |}).

(** [try: body except Exception: handler] *)
Definition try_except {A} (body : M A) (handler : exception -> M A) : M A :=
  fun s =>
    match body s with
    | (inl e, s') => handler e s'
    | r => r
    end.

(** Runs a handler on a fresh session, as FastAPI does with the
    [get_db] dependency ([db = SessionLocal()] ... [finally: db.close()]):
    the outcome and the committed store. *)
Definition get_db {A} (h : M A) (db : Db) : (exception + A) * Db :=
  let (r, s) := h (SessionLocal db) in (r, committed s).

(** ** passlib: [CryptContext(schemes=["bcrypt"], deprecated="auto")]

    The context first identifies the scheme of the stored hash; bcrypt
    recognises a hash by its identifier prefix.  A hash no scheme
    recognises makes [verify] raise [UnknownHashError]; a recognised one
    is handed to the bcrypt handler. *)

Definition bcrypt_ident_values : list string :=
  ["$2$"; "$2a$"; "$2x$"; "$2y$"; "$2b$"].

Definition bcrypt_identify (hash : string) : bool :=
  existsb (fun ident => Py.startswith hash ident) bcrypt_ident_values.

(** The bcrypt handler.  [bcrypt_hash rnd secret] is [hash(secret)] with
    [rnd] the random bytes the salt is drawn from; both operations may
    raise (the handler rejects some secrets and malformed hash strings).
    The two laws are the handler's contract: a hash it produced is
    recognised as bcrypt and verifies against its secret. *)
Class Bcrypt : Type :=
  { bcrypt_hash : string -> string -> exception + string;
    bcrypt_verify : string -> string -> exception + bool;
    bcrypt_hash_identify :
      forall rnd secret h,
        bcrypt_hash rnd secret = inr h -> bcrypt_identify h = true;
    bcrypt_verify_hash :
      forall rnd secret h,
        bcrypt_hash rnd secret = inr h -> bcrypt_verify secret h = inr true }.

Definition pwd_context_verify `{Bcrypt} (secret hash : string)
  : exception + bool :=
  if bcrypt_identify hash then bcrypt_verify secret hash
  else inl UnknownHashError.

Definition pwd_context_hash `{Bcrypt} (rnd secret : string)
  : exception + string :=
  bcrypt_hash rnd secret.

(** ** python-jose

    Claims are a dictionary from names to JSON values; the handlers
    store a string subject and a numeric expiry (seconds since the
    epoch: [jwt.encode] turns the [datetime] into whole seconds). *)

Inductive jvalue : Type :=
| JStr (s : string)
| JInt (n : Z).

(** All of [JWTError], [ExpiredSignatureError] and [JWTClaimsError] are
    caught by [except JWTError]. *)
Inductive JWTError : Type :=
| JWTError_
| ExpiredSignatureError
| JWTClaimsError.

(** Claims [jwt.decode] accepts at time [t] when they come back from a
    token signed with the right key: only [sub] and [exp] are present,
    the subject is a string and the expiry is a number not before [t]. *)
Definition claims_valid_at (c : gmap string jvalue) (t : Z) : bool :=
  bool_decide (dom c ⊆ ({["sub"; "exp"]} : gset string))
  && match c !! "sub" with Some (JInt _) => false | _ => true end
  && match c !! "exp" with
     | Some (JInt e) => (t <=? e)%Z
     | Some (JStr _) => false
     | None => true
     end.

(** [jwt_encode claims key algorithm] and
    [jwt_decode token key algorithms now].  Laws: a token encoded under
    a key decodes under that key to its claims while they are valid;
    a decoded subject is always a string.  Encoding is total here: keys
    the HMAC backend refuses (PEM-formatted ones) are left out. *)
Class Jose : Type :=
  { jwt_encode : gmap string jvalue -> string -> string -> string;
    jwt_decode :
      string -> string -> list string -> Z -> JWTError + gmap string jvalue;
    jwt_decode_encode :
      forall c key t,
        claims_valid_at c t = true ->
        jwt_decode (jwt_encode c key "HS256") key ["HS256"] t = inr c;
    jwt_decode_sub :
      forall token key algs t c v,
        jwt_decode token key algs t = inr c ->
        c !! "sub" = Some v -> exists s, v = JStr s }.

(** ** Request bodies *)

(** Modelled from the spec: [schemas.UserCreate] is not among the
    sources.  The body of both registration operations is
    [{name, email, phone, password}]; [is_admin] is the admin flag a
    caller may have put in the payload ([None] when absent). *)
Module UserCreate.
Record t : Type := Build
  { name : string;
    email : string;
    phone : string;
    password : string;
    is_admin : option bool }.
End UserCreate.

(** The fields of FastAPI's [OAuth2PasswordRequestForm] the login
    handlers read. *)
Module OAuth2PasswordRequestForm.
Record t : Type := Build
  { username : string;
    password : string }.
End OAuth2PasswordRequestForm.

(** The dictionary the login handlers return. *)
Record TokenResponse : Type := mkTokenResponse
  { access_token : string;
    token_type : string }.

(** What a route of [main.py] can see of a request: the
    [Authorization] header, if any. *)
Record Request : Type := mkRequest
  { authorization : option string }.

(** ** auth.py *)

Section Auth.

Context `{!Bcrypt} `{!Jose}.

(** The process environment read by [os.getenv]. *)
Context (environ : gmap string string).

Definition SECRET_KEY : string := default "supersecret" (environ !! "SECRET_KEY").
Definition ALGORITHM : string := "HS256".
Definition ACCESS_TOKEN_EXPIRE_MINUTES : Z := 60 * 24 * 7.

(** [timedelta(minutes=m)] in seconds. *)
Definition timedelta_minutes (m : Z) : Z := 60 * m.

Definition verify_password (plain_password hashed_password : string)
  : exception + bool :=
  pwd_context_verify plain_password hashed_password.

Definition get_password_hash (rnd password : string) : exception + string :=
  pwd_context_hash rnd password.

(** [expires_delta or timedelta(...)]: a zero [timedelta] is falsy, so
    it too selects the default.  [utcnow] is the clock reading. *)
Definition create_access_token (data : gmap string jvalue)
    (expires_delta : option Z) (utcnow : Z) : string :=
  let to_encode := data in
  let delta :=
    match expires_delta with
    | Some d => if (d =? 0)%Z then timedelta_minutes ACCESS_TOKEN_EXPIRE_MINUTES else d
    | None => timedelta_minutes ACCESS_TOKEN_EXPIRE_MINUTES
    end in
  let expire := utcnow + delta in
  let to_encode := <["exp" := JInt expire]> to_encode in
  jwt_encode to_encode SECRET_KEY ALGORITHM.

Definition get_user_by_email (email : string) : M (option User.t) :=
  query_user_first (fun u => String.eqb (User.email u) email).

Definition email_registered : exception :=
  HTTPException 400 "Email уже зарегистрирован" [].

Definition access_denied : exception :=
  HTTPException 403 "Доступ запрещен" [].

Definition bad_login : exception :=
  HTTPException 401 "Неверный email или пароль" [].

Definition admins_use_admin_page : exception :=
  HTTPException 403
    "Администраторы должны использовать специальную страницу входа" [].

Definition admins_only : exception :=
  HTTPException 403 "Доступ только для администраторов" [].

Definition register (user : UserCreate.t) (rnd : string) : M User.t :=
  let* existing := get_user_by_email (UserCreate.email user) in
  match existing with
  | Some _ => raise email_registered
  | None =>
    let* h := call (get_password_hash rnd (UserCreate.password user)) in
    let* db_user :=
      db_add (fun key =>
        {| User.id := key;
           User.name := UserCreate.name user;
           User.email := UserCreate.email user;
           User.phone := UserCreate.phone user;
           User.password_hash := h;
           User.is_admin := false |}) in
    db_commit ;;
    ret db_user
  end.

Definition register_admin (user : UserCreate.t) (rnd : string) : M User.t :=
  let* existing := get_user_by_email (UserCreate.email user) in
  match existing with
  | Some _ => raise email_registered
  | None =>
    if negb (String.eqb (UserCreate.email user) "admin@biosfera.ru")
    then raise access_denied
    else
    let* h := call (get_password_hash rnd (UserCreate.password user)) in
    let* db_user :=
      db_add (fun key =>
        {| User.id := key;
           User.name := UserCreate.name user;
           User.email := UserCreate.email user;
           User.phone := UserCreate.phone user;
           User.password_hash := h;
           User.is_admin := true |}) in
    db_commit ;;
    ret db_user
  end.

(** [not user or not verify_password(...)]: the password is checked
    only for an account that was found. *)
Definition login (form_data : OAuth2PasswordRequestForm.t) (utcnow : Z)
  : M TokenResponse :=
  let* user := get_user_by_email (OAuth2PasswordRequestForm.username form_data) in
  match user with
  | None => raise bad_login
  | Some user =>
      let* ok :=
        call (verify_password (OAuth2PasswordRequestForm.password form_data)
                (User.password_hash user)) in
      if negb ok then raise bad_login
      else if User.is_admin user then raise admins_use_admin_page
      else
        let access_token :=
          create_access_token {["sub" := JStr (Py.str (User.id user))]}
            None utcnow in
        ret {| access_token := access_token; token_type := "bearer" |}
  end.

Definition admin_login (form_data : OAuth2PasswordRequestForm.t) (utcnow : Z)
  : M TokenResponse :=
  let* user := get_user_by_email (OAuth2PasswordRequestForm.username form_data) in
  match user with
  | None => raise bad_login
  | Some user =>
      let* ok :=
        call (verify_password (OAuth2PasswordRequestForm.password form_data)
                (User.password_hash user)) in
      if negb ok then raise bad_login
      else if negb (User.is_admin user) then raise admins_only
      else
        let access_token :=
          create_access_token {["sub" := JStr (Py.str (User.id user))]}
            None utcnow in
        ret {| access_token := access_token; token_type := "bearer" |}
  end.

Definition credentials_exception : exception :=
  HTTPException 401 "Could not validate credentials"
    [("WWW-Authenticate", "Bearer")].

(** [int(x)] on a decoded claim; [None] stands for [ValueError]. *)
Definition int_of_claim (x : jvalue) : option Z :=
  match x with
  | JStr s => Py.int_ s
  | JInt n => Some n
  end.

(** The [try] block covers [jwt.decode] and the test of the subject;
    [int(user_id)] and the query come after it.  Keys are unbounded
    integers here: what the database driver does with a key outside the
    range of the column is not modelled. *)
Definition get_current_user (token : string) (utcnow : Z) : M User.t :=
  match jwt_decode token SECRET_KEY [ALGORITHM] utcnow with
  | inl _ => raise credentials_exception
  | inr payload =>
      match payload !! "sub" with
      | None => raise credentials_exception
      | Some user_id =>
          match int_of_claim user_id with
          | None => raise ValueError
          | Some key =>
              let* user :=
                query_user_first (fun u => (User.id u =? key)%Z) in
              match user with
              | None => raise credentials_exception
              | Some user => ret user
              end
          end
      end
  end.

(** ** create_admin.py

    Console output is not part of the model. *)

Definition create_admin (rnd : string) : M unit :=
  try_except
    (let admin_email := "admin@biosphere.ru" in
     let admin_password := "ADMINBIO" in
     let* existing_admin := query_user_first User.is_admin in
     match existing_admin with
     | Some existing_admin =>
         if negb (String.eqb (User.email existing_admin) admin_email)
         then db_set (User.id existing_admin) (set_is_admin false)
         else ret tt
     | None => ret tt
     end ;;
     let* existing_user :=
       query_user_first (fun u => String.eqb (User.email u) admin_email) in
     match existing_user with
     | Some existing_user =>
         db_set (User.id existing_user) (set_is_admin true) ;;
         let* h := call (get_password_hash rnd admin_password) in
         db_set (User.id existing_user) (set_password_hash h) ;;
         db_set (User.id existing_user) (set_name "Admin") ;;
         db_set (User.id existing_user) (set_phone "0000000000")
     | None =>
         let* h := call (get_password_hash rnd admin_password) in
         db_add (fun key =>
           {| User.id := key; User.name := "Admin";
              User.email := admin_email; User.phone := "0000000000";
              User.password_hash := h;
              User.is_admin := true |}) ;;
         ret tt
     end ;;
     db_commit)
    (fun _ => db_rollback) ;;
  db_close.

End Auth.

(** ** main.py: [POST /admin/clear_all] *)

Definition delete_reviews : M unit :=
  fun s =>
    (inr tt,
     {| committed := committed s;
        working :=
          {| users := users (working s); reviews := [];
             questions := questions (working s);
             specialists := specialists (working s) |} |}).

Definition delete_questions : M unit :=
  fun s =>
    (inr tt,
     {| committed := committed s;
        working :=
          {| users := users (working s); reviews := reviews (working s);
             questions := [];
             specialists := specialists (working s) |} |}).

Definition delete_users : M unit :=
  fun s =>
    (inr tt,
     {| committed := committed s; working := set_users [] (working s) |}).

Definition delete_specialists : M unit :=
  fun s =>
    (inr tt,
     {| committed := committed s;
        working :=
          {| users := users (working s); reviews := reviews (working s);
             questions := questions (working s);
             specialists := [] |} |}).

(** The handler declares no parameter and no dependency: it opens its
    own session and receives nothing of the request. *)
Definition clear_all : M (list (string * string)) :=
  delete_reviews ;;
  delete_questions ;;
  delete_users ;;
  delete_specialists ;;
  db_commit ;;
  db_close ;;
  ret [("status", "ok")].

(** The route as FastAPI serves it: whatever the request carries, the
    handler is called without arguments. *)
Definition post_admin_clear_all (request : Request) (db : Db)
  : (exception + list (string * string)) * Db :=
  get_db clear_all db.

(** ** fastapi.security: [OAuth2PasswordBearer(tokenUrl="/auth/token")]

    The dependency behind the [token] parameter of [get_current_user]:
    it reads the [Authorization] header, splits it at the first space
    and wants the scheme to be [bearer] in any letter case. *)

(** [s.partition(" ")]: the text before the first space and the text
    after it (both parts of a string without space: the string, and
    the empty string). *)
Fixpoint partition_space (s : string) : string * string :=
  match s with
  | EmptyString => (EmptyString, EmptyString)
  | String c r =>
      if Ascii.eqb c " " then (EmptyString, r)
      else let (a, b) := partition_space r in (String c a, b)
  end.

(** [s.lower()] on ASCII letters. *)
Definition lower_char (c : ascii) : ascii :=
  let n := nat_of_ascii c in
  if ((65 <=? n) && (n <=? 90))%nat then ascii_of_nat (n + 32) else c.

Fixpoint lower (s : string) : string :=
  match s with
  | EmptyString => EmptyString
  | String c r => String (lower_char c) (lower r)
  end.

Definition not_authenticated : exception :=
  HTTPException 401 "Not authenticated" [("WWW-Authenticate", "Bearer")].

Definition oauth2_scheme (request : Request) : exception + string :=
  match authorization request with
  | None => inl not_authenticated
  | Some header =>
      let (scheme, param) := partition_space header in
      if String.eqb header "" || negb (String.eqb (lower scheme) "bearer")
      then inl not_authenticated
      else inr param
  end.

(** ** main.py: the routes behind [Depends(get_current_user)] *)

Definition set_reviews (rs : list Review.t) (d : Db) : Db :=
  {| users := users d; reviews := rs;
     questions := questions d; specialists := specialists d |}.

Definition set_questions (qs : list Question.t) (d : Db) : Db :=
  {| users := users d; reviews := reviews d;
     questions := qs; specialists := specialists d |}.

(** [db.query(Review).filter(p).all()] *)
Definition query_reviews (p : Review.t -> bool) : M (list Review.t) :=
  fun s => (inr (List.filter p (reviews (working s))), s).

Definition query_questions (p : Question.t -> bool) : M (list Question.t) :=
  fun s => (inr (List.filter p (questions (working s))), s).

(** [db.delete(row)]: the row with this primary key leaves the table. *)
Definition db_delete_review (r : Review.t) : M unit :=
  fun s =>
    (inr tt,
     {| committed := committed s;
        working :=
          set_reviews
            (List.filter (fun x => negb (Review.id x =? Review.id r)%Z)
               (reviews (working s)))
            (working s) |}).

Definition db_delete_question (q : Question.t) : M unit :=
  fun s =>
    (inr tt,
     {| committed := committed s;
        working :=
          set_questions
            (List.filter (fun x => negb (Question.id x =? Question.id q)%Z)
               (questions (working s)))
            (working s) |}).

(** [for x in l: body(x)] *)
Fixpoint for_each {A} (l : list A) (body : A -> M unit) : M unit :=
  match l with
  | [] => ret tt
  | x :: r => body x ;; for_each r body
  end.

(** [timedelta(days=d)]; in [main.py] a [datetime] is counted in
    microseconds, the resolution of the stored [created_at]. *)
Definition timedelta_days (d : Z) : Z := d * (24 * 60 * 60 * 1000000).

Definition insufficient_rights : exception :=
  HTTPException 403 "Недостаточно прав для доступа к этой функции" [].

Record CleanupResponse : Type := mkCleanupResponse
  { cleanup_status : string;
    deleted_reviews : Z;
    deleted_questions : Z;
    cleanup_message : string }.

(** The two filters of [cleanup_old_data]. *)
Definition old_unanswered_review (one_year_ago : Z) (r : Review.t) : bool :=
  (Review.created_at r <? one_year_ago)%Z
  && match Review.admin_reply r with None => true | Some _ => false end.

Definition old_unanswered_question (one_year_ago : Z) (q : Question.t) : bool :=
  (Question.created_at q <? one_year_ago)%Z
  && match Question.admin_reply q with None => true | Some _ => false end.

(** [now] is the reading of [datetime.now()]. *)
Definition cleanup_old_data (current_user : User.t) (now : Z)
  : M CleanupResponse :=
  if negb (User.is_admin current_user) then raise insufficient_rights
  else
    let one_year_ago := now - timedelta_days 365 in
    let* old_reviews := query_reviews (old_unanswered_review one_year_ago) in
    for_each old_reviews db_delete_review ;;
    let* old_questions :=
      query_questions (old_unanswered_question one_year_ago) in
    for_each old_questions db_delete_question ;;
    db_commit ;;
    db_close ;;
    ret {| cleanup_status := "success";
           deleted_reviews := Z.of_nat (length old_reviews);
           deleted_questions := Z.of_nat (length old_questions);
           cleanup_message :=
             "Удалено " ++ Py.str (Z.of_nat (length old_reviews))
             ++ " старых отзывов и "
             ++ Py.str (Z.of_nat (length old_questions))
             ++ " старых вопросов" |}.

(** A route with [current_user: User = Depends(get_current_user)]:
    the token is taken from the header, resolved on a session of its
    own, and the handler runs only with the account this gives. *)
Definition with_current_user `{!Jose} {A} (environ : gmap string string)
    (handler : User.t -> M A) (request : Request) (utcnow : Z) (db : Db)
  : (exception + A) * Db :=
  match oauth2_scheme request with
  | inl e => (inl e, db)
  | inr token =>
      match get_db (get_current_user environ token utcnow) db with
      | (inl e, db') => (inl e, db')
      | (inr current_user, db') => get_db (handler current_user) db'
      end
  end.

Definition post_admin_cleanup `{!Jose} (environ : gmap string string)
    (request : Request) (utcnow now : Z) (db : Db)
  : (exception + CleanupResponse) * Db :=
  with_current_user environ (fun u => cleanup_old_data u now)
    request utcnow db.

(** ** main.py: statistics and export

    Both handlers only read.  Floating-point arithmetic and the text
    form of a [datetime] are not modelled: true division, the product
    of a float with an integer, [round(x, 1)] and [isoformat()] are
    parameters. *)

Section Reports.

Context {F : Type}.
Context (truediv : Z -> Z -> F) (fmul : F -> Z -> F) (round1 : F -> F).
Context (isoformat : Z -> string).

(** A Python number: an [int] or a [float]. *)
Inductive number : Type :=
| Int (n : Z)
| Float (x : F).

(** [round(x, 1)]: an [int] comes back as it is. *)
Definition round_1 (x : number) : number :=
  match x with
  | Int n => Int n
  | Float x => Float (round1 x)
  end.

(** [len(l)] and [sum(...)]. *)
Definition len {A} (l : list A) : Z := Z.of_nat (length l).
Definition sum (l : list Z) : Z := foldr Z.add 0 l.

(** [x or d] for an optional string: [None] and the empty string are
    both falsy. *)
Definition or_default (x : option string) (d : string) : string :=
  match x with
  | Some (String c r) => String c r
  | _ => d
  end.

(** [counts[key] = counts.get(key, 0) + 1] *)
Definition count_up (counts : gmap string Z) (key : string) : gmap string Z :=
  <[key := default 0 (counts !! key) + 1]> counts.

Record Overview : Type := mkOverview
  { total_specialists : Z;
    total_reviews : Z;
    total_questions : Z;
    total_users : Z;
    average_rating : number;
    response_rate : number }.

Record RecentActivity : Type := mkRecentActivity
  { reviews_last_week : Z;
    questions_last_week : Z;
    reviews_last_month : Z;
    questions_last_month : Z }.

Record Statistics : Type := mkStatistics
  { overview : Overview;
    recent_activity : RecentActivity;
    rating_distribution : gmap Z Z;
    specialists_by_position : gmap string Z;
    specialists_by_workplace : gmap string Z;
    generated_at : string }.

(** The column [rating] is not nullable, so the filter
    [Review.rating.isnot(None)] keeps every review. *)
Definition get_detailed_statistics (current_user : User.t) (now : Z)
  : M Statistics :=
  if negb (User.is_admin current_user) then raise insufficient_rights
  else
    fun s =>
      let db := working s in
      let total_specialists := len (specialists db) in
      let total_reviews := len (reviews db) in
      let total_questions := len (questions db) in
      let total_users := len (users db) in
      let reviews_with_rating := reviews db in
      let average_rating :=
        match reviews_with_rating with
        | [] => Int 0
        | _ =>
            Float (truediv (sum (Review.rating <$> reviews_with_rating))
                     (len reviews_with_rating))
        end in
      let rating_distribution :=
        foldl
          (fun d i =>
             <[i := len (List.filter (fun r => (Review.rating r =? i)%Z)
                           reviews_with_rating)]> d)
          (∅ : gmap Z Z) [1; 2; 3; 4; 5] in
      let answered_questions :=
        len (List.filter
               (fun q => match Question.admin_reply q with
                         | Some _ => true
                         | None => false
                         end)
               (questions db)) in
      let response_rate :=
        if (total_questions >? 0)%Z
        then Float (fmul (truediv answered_questions total_questions) 100)
        else Int 0 in
      let week_ago := now - timedelta_days 7 in
      let month_ago := now - timedelta_days 30 in
      let recent_reviews :=
        len (List.filter (fun r => (week_ago <=? Review.created_at r)%Z)
               (reviews db)) in
      let recent_questions :=
        len (List.filter (fun q => (week_ago <=? Question.created_at q)%Z)
               (questions db)) in
      let monthly_reviews :=
        len (List.filter (fun r => (month_ago <=? Review.created_at r)%Z)
               (reviews db)) in
      let monthly_questions :=
        len (List.filter (fun q => (month_ago <=? Question.created_at q)%Z)
               (questions db)) in
      let specialists_by_position :=
        foldl
          (fun d specialist =>
             count_up d
               (or_default (Some (Specialist.position specialist))
                  "Не указана"))
          (∅ : gmap string Z) (specialists db) in
      let specialists_by_workplace :=
        foldl
          (fun d specialist =>
             count_up d
               (or_default (Specialist.workplace specialist) "Не указано"))
          (∅ : gmap string Z) (specialists db) in
      (inr
         {| overview :=
              {| total_specialists := total_specialists;
                 total_reviews := total_reviews;
                 total_questions := total_questions;
                 total_users := total_users;
                 average_rating := round_1 average_rating;
                 response_rate := round_1 response_rate |};
            recent_activity :=
              {| reviews_last_week := recent_reviews;
                 questions_last_week := recent_questions;
                 reviews_last_month := monthly_reviews;
                 questions_last_month := monthly_questions |};
            rating_distribution := rating_distribution;
            specialists_by_position := specialists_by_position;
            specialists_by_workplace := specialists_by_workplace;
            generated_at := isoformat now |},
       {| committed := committed s; working := committed s |}).

#[local] Set Warnings "-register-all".

(** JSON content of a response. *)
Inductive json : Type :=
| JNull
| JBool (b : bool)
| JNumber (n : number)
| JString (s : string)
| JArray (items : list json)
| JObject (fields : list (string * json)).

Definition json_opt (x : option string) : json :=
  match x with
  | Some s => JString s
  | None => JNull
  end.

(** What [export_data] can raise: the 403 of its own check, or
    [AttributeError] for an attribute a mapped class does not have. *)
Inductive export_error : Type :=
| ExportHTTP (e : exception)
| AttributeError (cls attr : string).

(** [r.user]: the account the foreign key points to, if any. *)
Definition related_user (us : list User.t) (key : option Z) : option User.t :=
  match key with
  | Some k => List.find (fun u => (User.id u =? k)%Z) us
  | None => None
  end.

Definition specialist_entry (s : Specialist.t) : json :=
  JObject
    [("id", JNumber (Int (Specialist.id s)));
     ("name", JString (Specialist.name s));
     ("position", JString (Specialist.position s));
     ("specialization", json_opt (Specialist.specialization s));
     ("workplace", json_opt (Specialist.workplace s));
     ("education", json_opt (Specialist.education s));
     ("extra_qual", json_opt (Specialist.extra_qual s));
     ("photo", json_opt (Specialist.photo s))].

Definition review_entry (us : list User.t) (r : Review.t) : json :=
  JObject
    [("id", JNumber (Int (Review.id r)));
     ("text", JString (Review.text r));
     ("rating", JNumber (Int (Review.rating r)));
     ("created_at", JString (isoformat (Review.created_at r)));
     ("user_name",
      json_opt (User.name <$> related_user us (Review.user_id r)));
     ("guest_name", json_opt (Review.guest_name r));
     ("admin_reply", json_opt (Review.admin_reply r))].

Definition question_entry (us : list User.t) (q : Question.t) : json :=
  JObject
    [("id", JNumber (Int (Question.id q)));
     ("text", JString (Question.text q));
     ("created_at", JString (isoformat (Question.created_at q)));
     ("user_name",
      json_opt (User.name <$> related_user us (Question.user_id q)));
     ("guest_name", json_opt (Question.guest_name q));
     ("admin_reply", json_opt (Question.admin_reply q));
     ("is_read", JBool (Question.is_read q))].

(** The entry of one account: [u.id], [u.name], [u.email] and
    [u.is_admin] are read, then [u.created_at], an attribute the class
    [User] of [models.py] does not declare. *)
Definition user_entry (u : User.t) : export_error + json :=
  inl (AttributeError "User" "created_at").

(** A list comprehension whose element expression may raise. *)
Fixpoint comprehension {A B E} (f : A -> E + B) (l : list A) : E + list B :=
  match l with
  | [] => inr []
  | x :: r =>
      match f x with
      | inl e => inl e
      | inr y =>
          match comprehension f r with
          | inl e => inl e
          | inr ys => inr (y :: ys)
          end
      end
  end.

(** [if q.admin_reply]: a reply that is [None] or empty is falsy. *)
Definition has_reply (q : Question.t) : bool :=
  match Question.admin_reply q with
  | Some (String _ _) => true
  | _ => false
  end.

Definition export_data (current_user : User.t) (now : Z) (db : Db)
  : export_error + json :=
  if negb (User.is_admin current_user)
  then inl (ExportHTTP insufficient_rights)
  else
    let specialists_data := specialist_entry <$> specialists db in
    let reviews_data := review_entry (users db) <$> reviews db in
    let questions_data := question_entry (users db) <$> questions db in
    match comprehension user_entry (users db) with
    | inl e => inl e
    | inr users_data =>
        inr
          (JObject
             [("export_date", JString (isoformat now));
              ("statistics",
               JObject
                 [("total_specialists", JNumber (Int (len (specialists db))));
                  ("total_reviews", JNumber (Int (len (reviews db))));
                  ("total_questions", JNumber (Int (len (questions db))));
                  ("total_users", JNumber (Int (len (users db))));
                  ("average_rating",
                   JNumber
                     match reviews db with
                     | [] => Int 0
                     | _ =>
                         Float (truediv (sum (Review.rating <$> reviews db))
                                  (len (reviews db)))
                     end);
                  ("response_rate",
                   JNumber
                     match questions db with
                     | [] => Int 0
                     | _ =>
                         Float
                           (fmul
                              (truediv
                                 (len (List.filter has_reply (questions db)))
                                 (len (questions db)))
                              100)
                     end)]);
              ("specialists", JArray specialists_data);
              ("reviews", JArray reviews_data);
              ("questions", JArray questions_data);
              ("users", JArray users_data)])
    end.

(** [GET /admin/export] with its dependency. *)
Definition get_admin_export `{!Jose} (environ : gmap string string)
    (request : Request) (utcnow now : Z) (db : Db) : export_error + json :=
  match oauth2_scheme request with
  | inl e => inl (ExportHTTP e)
  | inr token =>
      match get_db (get_current_user environ token utcnow) db with
      | (inl e, _) => inl (ExportHTTP e)
      | (inr current_user, db') => export_data current_user now db'
      end
  end.

(** [GET /admin/statistics] with its dependency. *)
Definition get_admin_statistics `{!Jose} (environ : gmap string string)
    (request : Request) (utcnow now : Z) (db : Db)
  : (exception + Statistics) * Db :=
  with_current_user environ (fun u => get_detailed_statistics u now)
    request utcnow db.

End Reports.

(** ** Vocabulary of the statements *)

(** The column constraints of [users]: [id] is the primary key and
    [email] is declared unique. *)
Definition unique_ids (db : Db) : Prop := NoDup (User.id <$> users db).
Definition unique_emails (db : Db) : Prop := NoDup (User.email <$> users db).

(** Whether some account of the store has this email. *)
Definition email_taken (db : Db) (email : string) : bool :=
  existsb (fun u => String.eqb (User.email u) email) (users db).

(** The filters of the two queries by column value. *)
Definition by_email (email : string) (u : User.t) : bool :=
  String.eqb (User.email u) email.

Definition by_id (key : Z) (u : User.t) : bool := (User.id u =? key)%Z.

(** The claims of a token for subject [sub] that expires at [exp]. *)
Definition claims_of (sub : string) (exp : Z) : gmap string jvalue :=
  <["exp" := JInt exp]> {["sub" := JStr sub]}.

(** Rows of a table that carry a given key. *)
Definition row_of (us : list User.t) (key : Z) (x : User.t) : Prop :=
  x ∈ us /\ User.id x = key.

(** The users table after the first step of [create_admin]. *)
Definition demoted (us : list User.t) : list User.t :=
  match List.find User.is_admin us with
  | Some a =>
      if negb (String.eqb (User.email a) "admin@biosphere.ru")
      then update_row (User.id a) (set_is_admin false) us
      else us
  | None => us
  end.

(** The users table after its second step, [h] being the new hash. *)
Definition bootstrapped (h : string) (us : list User.t) : list User.t :=
  match List.find (by_email "admin@biosphere.ru") us with
  | Some e =>
      update_row (User.id e) (set_phone "0000000000")
        (update_row (User.id e) (set_name "Admin")
           (update_row (User.id e) (set_password_hash h)
              (update_row (User.id e) (set_is_admin true) us)))
  | None =>
      us ++ [ {| User.id := next_id us; User.name := "Admin";
                 User.email := "admin@biosphere.ru";
                 User.phone := "0000000000";
                 User.password_hash := h; User.is_admin := true |} ]
  end.


(** The four assignments to the bootstrap row, in one. *)
Definition as_bootstrap (h : string) (u : User.t) : User.t :=
  set_phone "0000000000"
    (set_name "Admin" (set_password_hash h (set_is_admin true u))).

(** The header of a request that presents [token]. *)
Definition bearer (token : string) : Request :=
  {| authorization := Some ("Bearer " ++ token) |}.

(** Rows a cleanup at [now] removes and rows it keeps. *)
Definition expired_review (now : Z) (r : Review.t) : bool :=
  old_unanswered_review (now - timedelta_days 365) r.

Definition expired_question (now : Z) (q : Question.t) : bool :=
  old_unanswered_question (now - timedelta_days 365) q.

(** The store after a cleanup at [now]. *)
Definition cleaned (now : Z) (db : Db) : Db :=
  {| users := users db;
     reviews := List.filter (fun r => negb (expired_review now r)) (reviews db);
     questions :=
       List.filter (fun q => negb (expired_question now q)) (questions db);
     specialists := specialists db |}.

(** Reviews whose rating is one of the five stars. *)
Definition rated_1_to_5 (r : Review.t) : bool :=
  (1 <=? Review.rating r)%Z && (Review.rating r <=? 5)%Z.



(** The calls that may lie between two requests, [clear_all] apart. *)
Inductive handler_call : Type :=
| CallRegister (user : UserCreate.t) (rnd : string)
| CallRegisterAdmin (user : UserCreate.t) (rnd : string)
| CallLogin (form_data : OAuth2PasswordRequestForm.t) (utcnow : Z)
| CallAdminLogin (form_data : OAuth2PasswordRequestForm.t) (utcnow : Z)
| CallGetCurrentUser (token : string) (utcnow : Z)
| CallCreateAdmin (rnd : string)
| CallCleanup (current_user : User.t) (now : Z).

(** The store a call leaves, and the store a series of calls leaves. *)
Definition after_call `{!Bcrypt} `{!Jose} (environ : gmap string string)
    (db : Db) (c : handler_call) : Db :=
  match c with
  | CallRegister user rnd => (get_db (register user rnd) db).2
  | CallRegisterAdmin user rnd => (get_db (register_admin user rnd) db).2
  | CallLogin form_data utcnow =>
      (get_db (login environ form_data utcnow) db).2
  | CallAdminLogin form_data utcnow =>
      (get_db (admin_login environ form_data utcnow) db).2
  | CallGetCurrentUser token utcnow =>
      (get_db (get_current_user environ token utcnow) db).2
  | CallCreateAdmin rnd => (get_db (create_admin rnd) db).2
  | CallCleanup current_user now =>
      (get_db (cleanup_old_data current_user now) db).2
  end.

Definition after_calls `{!Bcrypt} `{!Jose} (environ : gmap string string)
    (db : Db) (calls : list handler_call) : Db :=
  foldl (after_call environ) db calls.

(** Seconds a token lives for a given [expires_delta]. *)
Definition lifetime (expires_delta : option Z) : Z :=
  match expires_delta with
  | Some d => if (d =? 0)%Z then 7 * 24 * 60 * 60 else d
  | None => 7 * 24 * 60 * 60
  end.

(** The response of a successful login of account [u] at [utcnow]. *)
Definition token_for `{!Jose} (environ : gmap string string) (u : User.t)
    (utcnow : Z) : TokenResponse :=
  {| access_token :=
       create_access_token environ {["sub" := JStr (Py.str (User.id u))]}
         None utcnow;
     token_type := "bearer" |}.

(** ** Reference implementations of the two library interfaces

    Small executable stand-ins for bcrypt and for the token codec (they
    make no claim of cryptographic strength); the laws are proved for
    them further down and the concrete runs use them. *)

Module RefImpl.
Import Py.

Definition ref_hash (rnd secret : string) : exception + string :=
  inr ("$2b$" ++ secret).

Definition ref_verify (secret hash : string) : exception + bool :=
  inr (String.eqb hash ("$2b$" ++ secret)).

(** A second stand-in for bcrypt that, like passlib's handler, refuses
    a secret with a NUL byte in it, when hashing and when verifying. *)
Fixpoint has_nul (s : string) : bool :=
  match s with
  | EmptyString => false
  | String c r => Ascii.eqb c "000" || has_nul r
  end.

Definition strict_hash (rnd secret : string) : exception + string :=
  if has_nul secret then inl (HandlerError "PasswordValueError")
  else inr ("$2b$" ++ secret).

Definition strict_verify (secret hash : string) : exception + bool :=
  if has_nul secret then inl (HandlerError "PasswordValueError")
  else inr (String.eqb hash ("$2b$" ++ secret)).

(** Token layout: [key.alg.exp.sub], the subject written after an
    [s] when present. *)
Fixpoint strip_prefix (p s : string) : option string :=
  match p with
  | EmptyString => Some s
  | String a p' =>
      match s with
      | String b s' => if Ascii.eqb a b then strip_prefix p' s' else None
      | EmptyString => None
      end
  end.

Fixpoint strip_prefixes (ps : list string) (s : string) : option string :=
  match ps with
  | [] => Some s
  | p :: ps' =>
      match strip_prefix p s with
      | Some r => strip_prefixes ps' r
      | None => None
      end
  end.

Fixpoint split_dot (s : string) : option (string * string) :=
  match s with
  | EmptyString => None
  | String c r =>
      if Ascii.eqb c "." then Some (EmptyString, r)
      else
        match split_dot r with
        | Some (a, b) => Some (String c a, b)
        | None => None
        end
  end.

Definition ref_encode (c : gmap string jvalue) (key alg : string) : string :=
  key ++ "." ++ alg ++ "."
  ++ match c !! "exp" with Some (JInt e) => str e | _ => "" end
  ++ "."
  ++ match c !! "sub" with Some (JStr s) => String "s" s | _ => "" end.

Definition ref_decode (token key : string) (algs : list string) (t : Z)
  : JWTError + gmap string jvalue :=
  match algs with
  | [] => inl JWTError_
  | alg :: _ =>
      match strip_prefixes [key; "."; alg; "."] token with
      | None => inl JWTError_
      | Some rest =>
          match split_dot rest with
          | None => inl JWTError_
          | Some (e, sub) =>
              let c : gmap string jvalue :=
                match sub return gmap string jvalue with
                | String _ s => {["sub" := JStr s]}
                | EmptyString => ∅
                end in
              match e with
              | EmptyString => inr c
              | _ =>
                  match int_ e with
                  | None => inl JWTError_
                  | Some e' =>
                      if (t <=? e')%Z then inr (<["exp" := JInt e']> c)
                      else inl ExpiredSignatureError
                  end
              end
          end
      end
  end.

End RefImpl.

(** ** Sample data for the concrete runs *)

Module Sample.

Definition empty_db : Db :=
  {| users := []; reviews := []; questions := []; specialists := [] |}.

Definition alice : User.t :=
  {| User.id := 1; User.name := "Alice"; User.email := "a@x.com";
     User.phone := "+100"; User.password_hash := "$2b$pw1";
     User.is_admin := false |}.

Definition root : User.t :=
  {| User.id := 2; User.name := "Root"; User.email := "admin@biosfera.ru";
     User.phone := "+200"; User.password_hash := "$2b$rootpw";
     User.is_admin := true |}.

Definition db_two : Db :=
  {| users := [alice; root]; reviews := []; questions := [];
     specialists := [] |}.

Definition eve : User.t :=
  {| User.id := 1; User.name := "Eve"; User.email := "eve@x.com";
     User.phone := "+300"; User.password_hash := "$2b$pw";
     User.is_admin := false |}.

Definition db_eve : Db :=
  {| users := [eve]; reviews := []; questions := []; specialists := [] |}.

Definition bootstrap_admin : User.t :=
  {| User.id := 1; User.name := "Admin"; User.email := "admin@biosphere.ru";
     User.phone := "0000000000"; User.password_hash := "$2b$ADMINBIO";
     User.is_admin := true |}.

Definition sentinel_request : UserCreate.t :=
  UserCreate.Build "Root" "admin@biosfera.ru" "+200" "rootpw" None.

Definition sentinel_admin (key : Z) : User.t :=
  {| User.id := key; User.name := "Root"; User.email := "admin@biosfera.ru";
     User.phone := "+200"; User.password_hash := "$2b$rootpw";
     User.is_admin := true |}.

Definition with_users (us : list User.t) : Db :=
  {| users := us; reviews := []; questions := []; specialists := [] |}.

(** An account whose stored hash is no bcrypt hash. *)
Definition dave : User.t :=
  {| User.id := 1; User.name := "Dave"; User.email := "d@x.com";
     User.phone := "+700"; User.password_hash := "not-a-hash";
     User.is_admin := false |}.

(** A wrong password for [alice] with a NUL byte in it. *)
Definition nul_password : string := String "000" "wrong".

End Sample.

(** Sample tables for the concrete runs of [main.py], and exact
    fractions standing in for floats. *)

Module MoreSample.
Import Sample.

Definition day : Z := 24 * 60 * 60 * 1000000.

Definition review_old : Review.t :=
  {| Review.id := 1; Review.user_id := Some 1; Review.guest_name := None;
     Review.guest_phone := None; Review.rating := 5; Review.text := "good";
     Review.created_at := 0; Review.admin_reply := None |}.

Definition review_answered : Review.t :=
  {| Review.id := 2; Review.user_id := None; Review.guest_name := Some "Bob";
     Review.guest_phone := None; Review.rating := 3; Review.text := "fine";
     Review.created_at := 0; Review.admin_reply := Some "thanks" |}.

Definition review_recent : Review.t :=
  {| Review.id := 3; Review.user_id := Some 1; Review.guest_name := None;
     Review.guest_phone := None; Review.rating := 7; Review.text := "new";
     Review.created_at := 725 * day; Review.admin_reply := None |}.

Definition question_old : Question.t :=
  {| Question.id := 1; Question.user_id := None;
     Question.guest_name := Some "Bob"; Question.guest_phone := None;
     Question.text := "when"; Question.created_at := 0;
     Question.admin_reply := None; Question.is_read := false |}.

Definition question_recent : Question.t :=
  {| Question.id := 2; Question.user_id := Some 1;
     Question.guest_name := None; Question.guest_phone := None;
     Question.text := "where"; Question.created_at := 700 * day;
     Question.admin_reply := None; Question.is_read := true |}.

Definition specialist_named : Specialist.t :=
  {| Specialist.id := 1; Specialist.name := "Ann";
     Specialist.position := "Doctor"; Specialist.specialization := None;
     Specialist.workplace := Some "Clinic"; Specialist.education := None;
     Specialist.extra_qual := None; Specialist.photo := None;
     Specialist.created_at := 0; Specialist.updated_at := 0 |}.

Definition specialist_blank : Specialist.t :=
  {| Specialist.id := 2; Specialist.name := "Ben";
     Specialist.position := ""; Specialist.specialization := None;
     Specialist.workplace := None; Specialist.education := None;
     Specialist.extra_qual := None; Specialist.photo := None;
     Specialist.created_at := 0; Specialist.updated_at := 0 |}.

Definition db_full : Db :=
  {| users := [alice; root];
     reviews := [review_old; review_answered; review_recent];
     questions := [question_old; question_recent];
     specialists := [specialist_named; specialist_blank] |}.

Definition db_admins : Db := with_users [bootstrap_admin; sentinel_admin 2].

Definition carol_request : UserCreate.t :=
  UserCreate.Build "Carol" "c@x.com" "+600" "pw3" None.

Definition carol : User.t :=
  {| User.id := 3; User.name := "Carol"; User.email := "c@x.com";
     User.phone := "+600"; User.password_hash := "$2b$pw3";
     User.is_admin := false |}.

Definition db_three : Db := with_users [alice; root; carol].

Definition frac_div (a b : Z) : Z * Z := (a, b).
Definition frac_mul (x : Z * Z) (k : Z) : Z * Z := (x.1 * k, x.2).
Definition frac_round (x : Z * Z) : Z * Z := x.

(** The statistics of the sample store at day 730. *)
Definition stats_full : Statistics :=
  {| overview :=
       {| total_specialists := 2; total_reviews := 3; total_questions := 2;
          total_users := 2;
          average_rating := Float (15, 3);
          response_rate := Float (0, 2) |};
     recent_activity :=
       {| reviews_last_week := 1; questions_last_week := 0;
          reviews_last_month := 1; questions_last_month := 1 |};
     rating_distribution :=
       <[5 := 1]> (<[4 := 0]> (<[3 := 1]> (<[2 := 0]> (<[1 := 0]> ∅))));
     specialists_by_position :=
       <["Не указана" := 1]> (<["Doctor" := 1]> ∅);
     specialists_by_workplace :=
       <["Не указано" := 1]> (<["Clinic" := 1]> ∅);
     generated_at := Py.str (730 * day) |}.

End MoreSample.

(** * Properties *)

(** ** [int(str(n)) == n] *)

Module PyFacts.
Import Py.

Example int_plain : int_ "42" = Some 42.
Proof. reflexivity. Qed.

Example int_spaces_sign : int_ "  -17 " = Some (-17).
Proof. reflexivity. Qed.

Example int_underscore : int_ "+1_000" = Some 1000.
Proof. reflexivity. Qed.

Example int_double_underscore : int_ "1__0" = None.
Proof. reflexivity. Qed.

Example int_letters : int_ "abc" = None.
Proof. reflexivity. Qed.

Example int_empty : int_ "" = None.
Proof. reflexivity. Qed.

Example str_negative : str (-305) = "-305".
Proof. reflexivity. Qed.

Example str_zero : str 0 = "0".
Proof. reflexivity. Qed.

Lemma uint_all_digits d :
  all_chars is_digit (NilEmpty.string_of_uint d) = true.
Proof. induction d; simpl; auto. Qed.

Lemma lstrip_no_space s :
  all_chars (fun c => negb (is_space c)) s = true -> lstrip s = s.
Proof.
  destruct s as [|c r]; simpl; [done|].
  intros [Hc _]%andb_prop. by destruct (is_space c).
Qed.

Lemma rstrip_no_space s :
  all_chars (fun c => negb (is_space c)) s = true -> rstrip s = s.
Proof.
  induction s as [|c r IH]; simpl; [done|].
  intros [Hc Hr]%andb_prop. rewrite (IH Hr).
  destruct r; [|done]. by destruct (is_space c).
Qed.

Lemma all_chars_impl (p q : ascii -> bool) s :
  (forall c, p c = true -> q c = true) ->
  all_chars p s = true -> all_chars q s = true.
Proof.
  intros Hpq. induction s as [|c r IH]; simpl; [done|].
  intros [Hc Hr]%andb_prop. by rewrite (Hpq _ Hc), (IH Hr).
Qed.

Lemma digit_not_space c : is_digit c = true -> negb (is_space c) = true.
Proof.
  unfold is_digit, digit_of, is_space.
  destruct (_ && _)%bool eqn:E; [|done]. intros _.
  apply andb_prop in E as [?%Nat.leb_le ?%Nat.leb_le].
  apply negb_true_iff, orb_false_iff; split; apply andb_false_iff.
  - right. apply Nat.leb_gt. lia.
  - right. apply Nat.leb_gt. lia.
Qed.

Lemma digits_acc d p :
  digits (Z.pos p) true (NilEmpty.string_of_uint d)
  = Some (Z.pos (Pos.of_uint_acc d p)).
Proof.
  revert p. induction d; intros p; simpl; [done|..];
    unfold digit_of; simpl; rewrite <- IHd; f_equal.
  all: match goal with
       | |- context [nat_of_ascii ?c] =>
           let v := eval vm_compute in (nat_of_ascii c) in
           change (nat_of_ascii c) with v
       end; lia.
Qed.

Lemma digits_uint d b :
  digits 0 b (NilEmpty.string_of_uint d)
  = match d with
    | Decimal.Nil => if b then Some 0 else None
    | _ => Some (Z.of_N (Pos.of_uint d))
    end.
Proof.
  revert b. induction d; intros b; simpl; [done|..];
    unfold digit_of; simpl; try apply digits_acc.
  rewrite IHd. by destruct d.
Qed.

Lemma strip_uint d :
  strip (NilEmpty.string_of_uint d) = NilEmpty.string_of_uint d.
Proof.
  assert (all_chars (fun c => negb (is_space c))
            (NilEmpty.string_of_uint d) = true) as H.
  { eapply all_chars_impl; [apply digit_not_space|apply uint_all_digits]. }
  unfold strip. by rewrite (lstrip_no_space _ H), (rstrip_no_space _ H).
Qed.

Lemma int_of_uint d :
  d ≠ Decimal.Nil ->
  int_ (NilEmpty.string_of_uint d) = Some (Z.of_N (Pos.of_uint d)).
Proof.
  intros Hd. unfold int_. rewrite strip_uint.
  transitivity (digits 0 false (NilEmpty.string_of_uint d)).
  - by destruct d.
  - rewrite digits_uint. by destruct d.
Qed.


Lemma int_neg_uint d :
  d ≠ Decimal.Nil ->
  int_ (String "-" (NilEmpty.string_of_uint d))
  = Some (- Z.of_N (Pos.of_uint d)).
Proof.
  intros Hd. unfold int_, strip.
  assert (all_chars (fun c => negb (is_space c))
            (String "-" (NilEmpty.string_of_uint d)) = true) as H.
  { simpl. eapply all_chars_impl; [apply digit_not_space|apply uint_all_digits]. }
  rewrite (lstrip_no_space _ H), (rstrip_no_space _ H).
  rewrite digits_uint. by destruct d.
Qed.

Lemma string_of_pos p :
  NilZero.string_of_uint (Pos.to_uint p)
  = NilEmpty.string_of_uint (Pos.to_uint p).
Proof.
  pose proof (DecimalPos.Unsigned.to_uint_nonnil p).
  by destruct (Pos.to_uint p).
Qed.

(** Parsing the decimal text of an integer gives the integer back. *)
Lemma int_str n : int_ (str n) = Some n.
Proof.
  pose proof DecimalPos.Unsigned.to_uint_nonnil as Hnil.
  unfold str. destruct n as [|p|p]; [done|..]; simpl;
    rewrite string_of_pos.
  - rewrite int_of_uint by done. by rewrite DecimalPos.Unsigned.of_to.
  - rewrite int_neg_uint by done. by rewrite DecimalPos.Unsigned.of_to.
Qed.

(** The text of an integer consists of digits and, possibly, a sign. *)
Lemma str_chars n :
  all_chars (fun c => is_digit c || Ascii.eqb c "-") (str n) = true.
Proof.
  assert (forall d, all_chars (fun c => is_digit c || Ascii.eqb c "-")
                      (NilEmpty.string_of_uint d) = true) as H.
  { intros d. eapply all_chars_impl; [|apply uint_all_digits].
    by intros c ->. }
  unfold str. destruct n as [|p|p]; [done|..]; simpl;
    rewrite string_of_pos; apply H.
Qed.

Lemma str_nonempty n : str n ≠ "".
Proof.
  unfold str. destruct n as [|p|p]; [done|..]; simpl; [|done].
  rewrite string_of_pos.
  pose proof (DecimalPos.Unsigned.to_uint_nonnil p).
  by destruct (Pos.to_uint p).
Qed.

End PyFacts.

(** ** The reference implementations satisfy the laws *)

Module Reference.
Import Py PyFacts RefImpl.

#[export] Instance ref_bcrypt : Bcrypt.
Proof.
  refine {| bcrypt_hash := ref_hash; bcrypt_verify := ref_verify |}.
  - intros rnd secret h [= <-]. reflexivity.
  - intros rnd secret h [= <-]. unfold ref_verify.
    by rewrite String.eqb_refl.
Defined.

Definition strict_bcrypt : Bcrypt.
Proof.
  refine {| bcrypt_hash := strict_hash; bcrypt_verify := strict_verify |}.
  - intros rnd secret h. unfold strict_hash.
    destruct (has_nul secret); [done|]. by intros [= <-].
  - intros rnd secret h. unfold strict_hash, strict_verify.
    destruct (has_nul secret); [done|]. intros [= <-].
    by rewrite String.eqb_refl.
Defined.

Lemma strip_prefix_app p s : strip_prefix p (p ++ s) = Some s.
Proof.
  induction p as [|a p IH]; simpl; [done|]. by rewrite Ascii.eqb_refl.
Qed.

Lemma split_dot_app a b :
  all_chars (fun c => negb (Ascii.eqb c ".")) a = true ->
  split_dot (a ++ "." ++ b) = Some (a, b).
Proof.
  change ("." ++ b) with (String "." b).
  induction a as [|c a IH]; simpl; [done|].
  intros [Hc Ha]%andb_prop. apply negb_true_iff in Hc.
  by rewrite Hc, (IH Ha).
Qed.

Lemma str_no_dot n :
  all_chars (fun c => negb (Ascii.eqb c ".")) (str n) = true.
Proof.
  eapply all_chars_impl; [|apply str_chars].
  intros c. unfold is_digit, digit_of.
  by destruct (Ascii.eqb_spec c ".") as [->|].
Qed.

Lemma claims_two_keys (c c' : gmap string jvalue) :
  dom c ⊆ ({["sub"; "exp"]} : gset string) ->
  dom c' ⊆ ({["sub"; "exp"]} : gset string) ->
  c !! "sub" = c' !! "sub" -> c !! "exp" = c' !! "exp" -> c = c'.
Proof.
  intros Hc Hc' Hs He. apply map_eq; intros k.
  destruct (decide (k = "sub")) as [->|Hks]; [done|].
  destruct (decide (k = "exp")) as [->|Hke]; [done|].
  assert (forall m : gmap string jvalue,
            dom m ⊆ ({["sub"; "exp"]} : gset string) -> m !! k = None) as Hk.
  { intros m Hm. apply not_elem_of_dom. intros Hin.
    apply Hm in Hin.
    apply elem_of_union in Hin as [Hin|Hin];
      apply elem_of_singleton in Hin; congruence. }
  by rewrite (Hk c), (Hk c').
Qed.

Lemma dom_sub_only s :
  dom ({["sub" := JStr s]} : gmap string jvalue)
  ⊆ ({["sub"; "exp"]} : gset string).
Proof. rewrite dom_singleton_L. apply union_subseteq_l. Qed.

Lemma dom_exp_insert e (c : gmap string jvalue) :
  dom c ⊆ ({["sub"; "exp"]} : gset string) ->
  dom (<["exp" := JInt e]> c) ⊆ ({["sub"; "exp"]} : gset string).
Proof.
  intros Hc. rewrite dom_insert_L.
  apply union_least; [apply union_subseteq_r|done].
Qed.

Lemma ref_decode_encode c key t :
  claims_valid_at c t = true ->
  ref_decode (ref_encode c key "HS256") key ["HS256"] t = inr c.
Proof.
  unfold claims_valid_at.
  intros [[Hdom Hsub]%andb_prop Hexp]%andb_prop.
  apply bool_decide_eq_true in Hdom.
  unfold ref_decode, ref_encode.
  simpl. rewrite strip_prefix_app. simpl.
  destruct (c !! "sub") as [[s|?]|] eqn:Es; [|done|];
    (destruct (c !! "exp") as [[?|e]|] eqn:Ee; [done|..]).
  - change ("" ++ ?x) with x. rewrite split_dot_app by apply str_no_dot.
    pose proof (str_nonempty e) as Hne.
    destruct (str e) eqn:Ev; [done|]. rewrite <- Ev, int_str, Hexp.
    f_equal. symmetry. apply claims_two_keys; [done|..].
    + apply dom_exp_insert, dom_sub_only.
    + by rewrite lookup_insert_ne, lookup_singleton_eq.
    + by rewrite lookup_insert_eq.
  - simpl. f_equal. symmetry. apply claims_two_keys; [done|..].
    + apply dom_sub_only.
    + by rewrite lookup_singleton_eq.
    + by rewrite lookup_singleton_ne.
  - change ("" ++ ?x) with x. rewrite split_dot_app by apply str_no_dot.
    pose proof (str_nonempty e) as Hne.
    destruct (str e) eqn:Ev; [done|]. rewrite <- Ev, int_str, Hexp.
    f_equal. symmetry. apply claims_two_keys; [done|..].
    + apply dom_exp_insert. rewrite dom_empty_L. apply empty_subseteq.
    + by rewrite lookup_insert_ne, lookup_empty.
    + by rewrite lookup_insert_eq.
  - simpl. f_equal. symmetry. apply claims_two_keys; [done|..].
    + rewrite dom_empty_L. apply empty_subseteq.
    + by rewrite lookup_empty.
    + by rewrite lookup_empty.
Qed.

Lemma ref_decode_sub token key algs t c v :
  ref_decode token key algs t = inr c ->
  c !! "sub" = Some v -> exists s, v = JStr s.
Proof.
  unfold ref_decode. destruct algs as [|alg ?]; [done|].
  destruct (strip_prefixes _ _); [|done].
  destruct (split_dot _) as [[e sub]|]; [|done].
  assert (forall c0 : gmap string jvalue,
            c0 = match sub return gmap string jvalue with
                 | String _ s => {["sub" := JStr s]}
                 | EmptyString => ∅
                 end ->
            c0 !! "sub" = Some v -> exists s, v = JStr s) as Hc0.
  { intros c0 ->. destruct sub; [done|].
    rewrite lookup_singleton_eq. intros [= <-]. eauto. }
  destruct e.
  - intros [= <-]. by apply Hc0.
  - destruct (int_ _); [|done]. destruct (_ <=? _)%Z; [|done].
    intros [= <-]. rewrite lookup_insert_ne by done. by apply Hc0.
Qed.

#[export] Instance ref_jose : Jose :=
  {| jwt_encode := ref_encode;
     jwt_decode := ref_decode;
     jwt_decode_encode := ref_decode_encode;
     jwt_decode_sub := ref_decode_sub |}.

End Reference.

(** ** The store: lookups and keys *)

Lemma find_existsb {A} (p : A -> bool) (l : list A) :
  existsb p l = match List.find p l with Some _ => true | None => false end.
Proof. induction l as [|x l IH]; simpl; [done|]. by destruct (p x). Qed.

Lemma find_first_unique {A B} `{EqDecision B} (key : A -> B) (l : list A) (a : A)
    (p : A -> bool) :
  (forall x, p x = true <-> key x = key a) ->
  NoDup (key <$> l) -> a ∈ l -> List.find p l = Some a.
Proof.
  intros Hp. induction l as [|x l IH]; simpl.
  - by intros _ ?%elem_of_nil.
  - rewrite NoDup_cons. intros [Hx Hl] [Heq|Ha]%elem_of_cons.
    + subst x. by rewrite (proj2 (Hp a) eq_refl).
    + destruct (p x) eqn:E; [|by apply IH].
      apply Hp in E. exfalso. apply Hx. rewrite E.
      by apply list_elem_of_fmap_2.
Qed.

Lemma find_none_iff {A} (p : A -> bool) (l : list A) :
  List.find p l = None <-> (forall x, x ∈ l -> p x = false).
Proof.
  induction l as [|x l IH]; simpl.
  - split; [|done]. by intros _ ? ?%elem_of_nil.
  - destruct (p x) eqn:E.
    + split; [done|]. intros H. rewrite H in E; [done|]. by left.
    + rewrite IH. split.
      * intros H y [->|?]%elem_of_cons; auto.
      * intros H y ?. apply H. by right.
Qed.

Lemma next_id_above (us : list User.t) (u : User.t) :
  u ∈ us -> User.id u < next_id us.
Proof.
  unfold next_id. induction us as [|x us IH]; simpl.
  - by intros ?%elem_of_nil.
  - intros [->|Hu]%elem_of_cons; [lia|].
    specialize (IH Hu).
    change (list_fmap User.t Z User.id us) with (User.id <$> us). lia.
Qed.

Lemma next_id_fresh (us : list User.t) : next_id us ∉ (User.id <$> us).
Proof.
  intros (u & Hid & Hu)%list_elem_of_fmap.
  apply next_id_above in Hu. lia.
Qed.

Lemma email_taken_spec (db : Db) (email : string) :
  email_taken db email = true
  <-> exists a, a ∈ users db /\ User.email a = email.
Proof.
  unfold email_taken. rewrite existsb_exists. split.
  - intros (a & Ha%list_elem_of_In & ?%String.eqb_eq). eauto.
  - intros (a & Ha%list_elem_of_In & ?%String.eqb_eq). eauto.
Qed.

(** ** Registration *)

Section Registration.

Context `{!Bcrypt}.

(** What [register] does, by cases on the two things it depends on. *)
Lemma register_run (user : UserCreate.t) (rnd : string) (db : Db) :
  get_db (register user rnd) db
  = if email_taken db (UserCreate.email user)
    then (inl email_registered, db)
    else
      match get_password_hash rnd (UserCreate.password user) with
      | inl e => (inl e, db)
      | inr h =>
          let u :=
            {| User.id := next_id (users db);
               User.name := UserCreate.name user;
               User.email := UserCreate.email user;
               User.phone := UserCreate.phone user;
               User.password_hash := h;
               User.is_admin := false |} in
          (inr u, set_users (users db ++ [u]) db)
      end.
Proof.
  unfold email_taken. rewrite find_existsb.
  unfold get_db, register, get_user_by_email, query_user_first, bind, call.
  simpl. destruct (List.find _ _); [done|].
  by destruct (get_password_hash _ _).
Qed.

Lemma register_admin_run (user : UserCreate.t) (rnd : string) (db : Db) :
  get_db (register_admin user rnd) db
  = if email_taken db (UserCreate.email user)
    then (inl email_registered, db)
    else if negb (String.eqb (UserCreate.email user) "admin@biosfera.ru")
    then (inl access_denied, db)
    else
      match get_password_hash rnd (UserCreate.password user) with
      | inl e => (inl e, db)
      | inr h =>
          let u :=
            {| User.id := next_id (users db);
               User.name := UserCreate.name user;
               User.email := UserCreate.email user;
               User.phone := UserCreate.phone user;
               User.password_hash := h;
               User.is_admin := true |} in
          (inr u, set_users (users db ++ [u]) db)
      end.
Proof.
  unfold email_taken. rewrite find_existsb.
  unfold get_db, register_admin, get_user_by_email, query_user_first,
    bind, call.
  simpl. destruct (List.find _ _); [done|].
  destruct (negb _); [done|].
  by destruct (get_password_hash _ _).
Qed.

(** C1.  Whatever admin flag the caller puts in the payload of
    [POST /auth/register] (none, [false] or [true]), an account the
    operation creates has [is_admin == false]; the account is the row
    added to the store, and the outcome is the one of the same request
    without the flag. *)
Theorem register_never_admin
    (name email phone password rnd : string) (flag : option bool)
    (db db' : Db) (u : User.t) :
  get_db (register (UserCreate.Build name email phone password flag) rnd) db
  = (inr u, db') ->
  User.is_admin u = false
  /\ users db' = (users db ++ [u])%list
  /\ get_db (register (UserCreate.Build name email phone password None) rnd) db
     = (inr u, db').
Proof.
  rewrite !register_run. simpl.
  destruct (email_taken db email); [done|].
  destruct (get_password_hash rnd password); [done|].
  by intros [= <- <-].
Qed.

(** C8.  On either registration path, a request whose email is the
    email of an existing account fails with the "email already
    registered" error, HTTP 400, and leaves the store as it was,
    whatever the other fields are. *)
Theorem register_duplicate_email
    (user : UserCreate.t) (rnd : string) (db : Db) (a : User.t) :
  a ∈ users db ->
  User.email a = UserCreate.email user ->
  get_db (register user rnd) db = (inl email_registered, db)
  /\ get_db (register_admin user rnd) db = (inl email_registered, db)
  /\ status_of email_registered = Some 400.
Proof.
  intros Ha He.
  assert (email_taken db (UserCreate.email user) = true) as Ht
    by (apply email_taken_spec; eauto).
  by rewrite register_run, register_admin_run, Ht.
Qed.

(** C3, as amended.  An admin-registration request whose email is not
    the sentinel address fails and creates no account, whatever the
    other fields are: with HTTP 403 when no account has that email, and
    with HTTP 400 (the duplicate check comes first) when one has. *)
Theorem register_admin_non_sentinel
    (user : UserCreate.t) (rnd : string) (db : Db) :
  UserCreate.email user ≠ "admin@biosfera.ru" ->
  get_db (register_admin user rnd) db
  = (inl (if email_taken db (UserCreate.email user)
          then email_registered else access_denied), db)
  /\ status_of access_denied = Some 403
  /\ status_of email_registered = Some 400.
Proof.
  intros Hne. rewrite register_admin_run.
  destruct (email_taken _ _); [done|].
  by rewrite (proj2 (String.eqb_neq _ _) Hne).
Qed.

End Registration.

(** ** Passwords *)

Section Passwords.

Context `{!Bcrypt}.

(** C6, as amended.  [verify_password] hands both strings to the
    context and has no handler of its own.  On a stored string that
    does not start with a bcrypt identifier it raises
    [UnknownHashError]; on one that does, its outcome is the bcrypt
    handler's, exception included.  It returns a boolean only for a
    recognised hash on which the handler returns that boolean. *)
Theorem verify_password_outcome (plain_password hashed_password : string) :
  (bcrypt_identify hashed_password = false ->
   verify_password plain_password hashed_password = inl UnknownHashError)
  /\ (bcrypt_identify hashed_password = true ->
      verify_password plain_password hashed_password
      = bcrypt_verify plain_password hashed_password)
  /\ (forall b : bool,
        verify_password plain_password hashed_password = inr b ->
        bcrypt_identify hashed_password = true
        /\ bcrypt_verify plain_password hashed_password = inr b).
Proof.
  unfold verify_password, pwd_context_verify.
  destruct (bcrypt_identify hashed_password); repeat split; done.
Qed.

End Passwords.

(** ** Login and tokens *)

Section Tokens.

Context `{!Bcrypt} `{!Jose}.
Context (environ : gmap string string).

Lemma login_run (form_data : OAuth2PasswordRequestForm.t) (utcnow : Z)
    (db : Db) :
  get_db (login environ form_data utcnow) db
  = match
      List.find (by_email (OAuth2PasswordRequestForm.username form_data))
        (users db)
    with
    | None => (inl bad_login, db)
    | Some user =>
        match
          verify_password (OAuth2PasswordRequestForm.password form_data)
            (User.password_hash user)
        with
        | inl e => (inl e, db)
        | inr false => (inl bad_login, db)
        | inr true =>
            if User.is_admin user then (inl admins_use_admin_page, db)
            else
              (inr {| access_token :=
                        create_access_token environ
                          {["sub" := JStr (Py.str (User.id user))]}
                          None utcnow;
                      token_type := "bearer" |}, db)
        end
    end.
Proof.
  unfold get_db, login, get_user_by_email, query_user_first,
    bind, call, by_email.
  simpl. destruct (List.find _ _) as [user|]; [|done].
  destruct (verify_password _ _) as [e|[]]; [done| |done].
  by destruct (User.is_admin user).
Qed.

Lemma admin_login_run (form_data : OAuth2PasswordRequestForm.t) (utcnow : Z)
    (db : Db) :
  get_db (admin_login environ form_data utcnow) db
  = match
      List.find (by_email (OAuth2PasswordRequestForm.username form_data))
        (users db)
    with
    | None => (inl bad_login, db)
    | Some user =>
        match
          verify_password (OAuth2PasswordRequestForm.password form_data)
            (User.password_hash user)
        with
        | inl e => (inl e, db)
        | inr false => (inl bad_login, db)
        | inr true =>
            if User.is_admin user
            then
              (inr {| access_token :=
                        create_access_token environ
                          {["sub" := JStr (Py.str (User.id user))]}
                          None utcnow;
                      token_type := "bearer" |}, db)
            else (inl admins_only, db)
        end
    end.
Proof.
  unfold get_db, admin_login, get_user_by_email, query_user_first,
    bind, call, by_email.
  simpl. destruct (List.find _ _) as [user|]; [|done].
  destruct (verify_password _ _) as [e|[]]; [done| |done].
  by destruct (User.is_admin user).
Qed.

Lemma find_by_email (db : Db) (a : User.t) :
  unique_emails db -> a ∈ users db ->
  List.find (by_email (User.email a)) (users db) = Some a.
Proof.
  intros Hu Ha. apply (find_first_unique User.email); [|done..].
  intros x. unfold by_email. apply String.eqb_eq.
Qed.

(** C4, as amended.  With the account's email and a password that
    verifies, an admin account is refused by [POST /auth/token] and a
    non-admin account by [POST /auth/admin/token], both with HTTP 403.
    In both lanes an email no account has, or a password the hasher
    checks and finds not to match, is refused with HTTP 401, whatever
    the admin flag.  When the hasher raises on the password or on the
    stored hash, both lanes let that exception through instead of the
    401.  No attempt changes the store. *)
Theorem login_role_lanes (form_data : OAuth2PasswordRequestForm.t)
    (utcnow : Z) (db : Db) :
  unique_emails db ->
  (forall a,
     a ∈ users db ->
     User.email a = OAuth2PasswordRequestForm.username form_data ->
     verify_password (OAuth2PasswordRequestForm.password form_data)
       (User.password_hash a) = inr true ->
     (User.is_admin a = true ->
      get_db (login environ form_data utcnow) db = (inl admins_use_admin_page, db))
     /\ (User.is_admin a = false ->
         get_db (admin_login environ form_data utcnow) db = (inl admins_only, db)))
  /\ (forall a,
        a ∈ users db ->
        User.email a = OAuth2PasswordRequestForm.username form_data ->
        verify_password (OAuth2PasswordRequestForm.password form_data)
          (User.password_hash a) = inr false ->
        get_db (login environ form_data utcnow) db = (inl bad_login, db)
        /\ get_db (admin_login environ form_data utcnow) db = (inl bad_login, db))
  /\ (email_taken db (OAuth2PasswordRequestForm.username form_data) = false ->
      get_db (login environ form_data utcnow) db = (inl bad_login, db)
      /\ get_db (admin_login environ form_data utcnow) db = (inl bad_login, db))
  /\ (forall a e,
        a ∈ users db ->
        User.email a = OAuth2PasswordRequestForm.username form_data ->
        verify_password (OAuth2PasswordRequestForm.password form_data)
          (User.password_hash a) = inl e ->
        get_db (login environ form_data utcnow) db = (inl e, db)
        /\ get_db (admin_login environ form_data utcnow) db = (inl e, db))
  /\ status_of admins_use_admin_page = Some 403
  /\ status_of admins_only = Some 403
  /\ status_of bad_login = Some 401.
Proof.
  intros Hu. rewrite login_run, admin_login_run.
  split; [|split; [|split; [|split; [|done]]]].
  - intros a Ha <- Hv. rewrite (find_by_email db a Hu Ha), Hv.
    split; by intros ->.
  - intros a Ha <- Hv. by rewrite (find_by_email db a Hu Ha), Hv.
  - unfold email_taken. rewrite find_existsb. unfold by_email.
    by destruct (List.find _ _).
  - intros a e Ha <- Hv. by rewrite (find_by_email db a Hu Ha), Hv.
Qed.

Lemma get_current_user_run (token : string) (utcnow : Z) (db : Db) :
  get_db (get_current_user environ token utcnow) db
  = match jwt_decode token (SECRET_KEY environ) [ALGORITHM] utcnow with
    | inl _ => (inl credentials_exception, db)
    | inr payload =>
        match payload !! "sub" with
        | None => (inl credentials_exception, db)
        | Some user_id =>
            match int_of_claim user_id with
            | None => (inl ValueError, db)
            | Some key =>
                match List.find (by_id key) (users db) with
                | None => (inl credentials_exception, db)
                | Some user => (inr user, db)
                end
            end
        end
    end.
Proof.
  unfold get_db, get_current_user, query_user_first, bind, by_id.
  destruct (jwt_decode _ _ _ _) as [|payload]; [done|].
  destruct (payload !! "sub") as [user_id|]; [|done].
  destruct (int_of_claim user_id); [|done].
  simpl. by destruct (List.find _ _).
Qed.

(** The part of C2 the code does satisfy: a token that fails
    verification, a token without subject, and a subject that is an
    integer literal but not the key of an account are all answered with
    the same HTTP 401. *)
Lemma get_current_user_rejects (token : string) (utcnow : Z) (db : Db) :
  (forall err,
     jwt_decode token (SECRET_KEY environ) [ALGORITHM] utcnow = inl err ->
     get_db (get_current_user environ token utcnow) db
     = (inl credentials_exception, db))
  /\ (forall payload,
        jwt_decode token (SECRET_KEY environ) [ALGORITHM] utcnow = inr payload ->
        payload !! "sub" = None ->
        get_db (get_current_user environ token utcnow) db
        = (inl credentials_exception, db))
  /\ (forall payload s key,
        jwt_decode token (SECRET_KEY environ) [ALGORITHM] utcnow = inr payload ->
        payload !! "sub" = Some (JStr s) ->
        Py.int_ s = Some key ->
        (forall u, u ∈ users db -> User.id u ≠ key) ->
        get_db (get_current_user environ token utcnow) db
        = (inl credentials_exception, db)).
Proof.
  rewrite get_current_user_run. repeat split.
  - by intros err ->.
  - by intros payload -> ->.
  - intros payload s key -> -> Hs Hnone. simpl. rewrite Hs.
    destruct (List.find _ _) as [u|] eqn:E; [|done].
    apply find_some in E as [Hu%list_elem_of_In Hk].
    apply Z.eqb_eq in Hk. by destruct (Hnone u Hu).
Qed.

Lemma claims_of_valid (sub : string) (exp t : Z) :
  t <= exp -> claims_valid_at (claims_of sub exp) t = true.
Proof.
  intros Ht. unfold claims_valid_at, claims_of.
  rewrite lookup_insert_ne, lookup_singleton_eq, lookup_insert_eq by done.
  rewrite (proj2 (Z.leb_le t exp) Ht), !andb_true_r.
  apply bool_decide_eq_true.
  rewrite dom_insert_L, dom_singleton_L.
  apply union_least; [apply union_subseteq_r|apply union_subseteq_l].
Qed.

(** C2 at its failing input.  A token signed with the server's key whose
    subject is the string [abc] passes verification; [int(user_id)] then
    raises [ValueError] outside the [try] block, so the caller does not
    get the HTTP 401 of [credentials_exception]. *)
Theorem get_current_user_non_numeric_subject (utcnow : Z) (db : Db) :
  get_db
    (get_current_user environ
       (jwt_encode (claims_of "abc" (utcnow + 60)) (SECRET_KEY environ)
          ALGORITHM)
       utcnow) db
  = (inl ValueError, db)
  /\ ValueError ≠ credentials_exception
  /\ status_of ValueError = None.
Proof.
  rewrite get_current_user_run. unfold ALGORITHM.
  rewrite jwt_decode_encode by (apply claims_of_valid; lia).
  unfold claims_of. by rewrite lookup_insert_ne, lookup_singleton_eq.
Qed.

Lemma find_by_id (db : Db) (a : User.t) :
  unique_ids db -> a ∈ users db ->
  List.find (by_id (User.id a)) (users db) = Some a.
Proof.
  intros Hu Ha. apply (find_first_unique User.id); [|done..].
  intros x. unfold by_id. apply Z.eqb_eq.
Qed.

(** C5.  For an account [a] of the store, the token issued for [a]
    (subject [str(a.id)], default lifetime of seven days) presented to
    [get_current_user] at the time of issuance, and at any time up to
    its expiry, gives [a] back. *)
Theorem token_round_trip (a : User.t) (db : Db) (utcnow t : Z) :
  unique_ids db ->
  a ∈ users db ->
  utcnow <= t <= utcnow + 7 * 24 * 60 * 60 ->
  get_db
    (get_current_user environ
       (create_access_token environ
          {["sub" := JStr (Py.str (User.id a))]} None utcnow)
       t) db
  = (inr a, db).
Proof.
  intros Hu Ha Ht. rewrite get_current_user_run.
  unfold create_access_token, ALGORITHM, timedelta_minutes,
    ACCESS_TOKEN_EXPIRE_MINUTES.
  change (<["exp" := JInt ?e]> {["sub" := JStr ?s]}) with (claims_of s e).
  rewrite jwt_decode_encode by (apply claims_of_valid; lia).
  unfold claims_of. rewrite lookup_insert_ne, lookup_singleton_eq by done.
  simpl. rewrite PyFacts.int_str. by rewrite find_by_id.
Qed.

End Tokens.

(** ** [POST /admin/clear_all] *)

(** C9.  Whatever the request carries, an [Authorization] header or
    none, the route empties the four tables and answers
    [{"status": "ok"}]: no token is read and no admin flag is looked
    at. *)
Theorem clear_all_needs_no_credentials (request : Request) (db : Db) :
  post_admin_clear_all request db
  = (inr [("status", "ok")],
     {| users := []; reviews := []; questions := []; specialists := [] |})
  /\ post_admin_clear_all {| authorization := None |} db
     = post_admin_clear_all request db.
Proof. done. Qed.

(** ** The bootstrap script *)

Section Bootstrap.

Context `{!Bcrypt}.

(** [create_admin] never raises; when hashing fails the store is left
    as it was. *)
Lemma create_admin_run (rnd : string) (db : Db) :
  get_db (create_admin rnd) db
  = (inr tt,
     match get_password_hash rnd "ADMINBIO" with
     | inr h => set_users (bootstrapped h (demoted (users db))) db
     | inl _ => db
     end).
Proof.
  unfold get_db, create_admin, try_except, bind, query_user_first, call,
    demoted, bootstrapped, by_email.
  destruct db as [us rs qs ss]. simpl.
  destruct (List.find User.is_admin us) as [a|]; simpl.
  - destruct (negb _); simpl.
    + destruct (List.find _ _); simpl;
        by destruct (get_password_hash rnd "ADMINBIO").
    + destruct (List.find _ _); simpl;
        by destruct (get_password_hash rnd "ADMINBIO").
  - destruct (List.find _ _); simpl;
      by destruct (get_password_hash rnd "ADMINBIO").
Qed.

Lemma elem_of_update_row key f us x :
  x ∈ update_row key f us
  <-> exists y, y ∈ us /\ x = if (User.id y =? key)%Z then f y else y.
Proof.
  unfold update_row. rewrite list_elem_of_fmap.
  split; intros (y & ? & ?); by exists y.
Qed.

Lemma key_inj {A B} (key : A -> B) (l : list A) (x y : A) :
  NoDup (key <$> l) -> x ∈ l -> y ∈ l -> key x = key y -> x = y.
Proof.
  induction l as [|z l IH]; [by intros _ ?%elem_of_nil|].
  rewrite fmap_cons, NoDup_cons. intros [Hz Hl].
  intros [->|Hx]%elem_of_cons [->|Hy]%elem_of_cons Hk; [done|..].
  - destruct Hz. rewrite Hk. by apply list_elem_of_fmap_2.
  - destruct Hz. rewrite <- Hk. by apply list_elem_of_fmap_2.
  - by apply IH.
Qed.

(** An assignment on the row with key [key] leaves rows with another
    key alone, provided it does not touch the key itself. *)
Lemma update_row_other key key' f us x :
  key ≠ key' -> (forall y, User.id (f y) = User.id y) ->
  row_of (update_row key f us) key' x <-> row_of us key' x.
Proof.
  intros Hne Hf. unfold row_of. rewrite elem_of_update_row. split.
  - intros [(y & Hy & ->) Hid].
    destruct (Z.eqb_spec (User.id y) key) as [E|E]; [|done].
    rewrite Hf in Hid. congruence.
  - intros [Hx Hid]. split; [|done]. exists x. split; [done|].
    destruct (Z.eqb_spec (User.id x) key) as [E|E]; [congruence|done].
Qed.

Lemma update_row_same key f us u x :
  NoDup (User.id <$> us) -> u ∈ us -> User.id u = key ->
  (forall y, User.id (f y) = User.id y) ->
  row_of (update_row key f us) key x <-> x = f u.
Proof.
  intros Hnd Hu Hk Hf. unfold row_of. rewrite elem_of_update_row. split.
  - intros [(y & Hy & ->) Hid].
    destruct (Z.eqb_spec (User.id y) key) as [E|E]; [|done].
    f_equal. apply (key_inj User.id us); [done..|congruence].
  - intros ->. split; [|by rewrite Hf]. exists u. split; [done|].
    by rewrite (proj2 (Z.eqb_eq _ _) Hk).
Qed.

Lemma bootstrapped_other h us key x :
  (forall e, e ∈ us -> User.email e = "admin@biosphere.ru" ->
             User.id e ≠ key) ->
  (exists y, y ∈ us /\ User.id y = key) ->
  row_of (bootstrapped h us) key x <-> row_of us key x.
Proof.
  intros Hmail (y & Hy & Hid). unfold bootstrapped.
  destruct (List.find _ _) as [e|] eqn:E.
  - apply find_some in E as [He%list_elem_of_In Hm].
    apply String.eqb_eq in Hm. specialize (Hmail e He Hm).
    by rewrite !update_row_other.
  - unfold row_of. rewrite elem_of_app, list_elem_of_singleton.
    split; [|intros [? ?]; by auto].
    intros [[?| ->] Hk]; [done|]. simpl in Hk.
    apply next_id_above in Hy. lia.
Qed.

(** C10, as amended.  The admin-registration path accepts the address
    [admin@biosfera.ru] and makes the account an admin; the bootstrap
    script works for [admin@biosphere.ru] and takes the admin flag from
    the first admin row of the table when its email is another one.  So
    for an account that became admin through
    [POST /auth/admin/register] and is the first admin row, a run of
    [create_admin] in which hashing succeeds leaves that account with
    [is_admin == false], all its other fields unchanged. *)
Theorem create_admin_demotes_registered_admin
    (user : UserCreate.t) (rnd rnd' h : string) (db0 db : Db) (u : User.t) :
  unique_ids db0 ->
  get_db (register_admin user rnd) db0 = (inr u, db) ->
  List.find User.is_admin (users db) = Some u ->
  get_password_hash rnd' "ADMINBIO" = inr h ->
  User.email u = "admin@biosfera.ru"
  /\ User.is_admin u = true
  /\ exists db',
       get_db (create_admin rnd') db = (inr tt, db')
       /\ set_is_admin false u ∈ users db'
       /\ (forall x, x ∈ users db' -> User.id x = User.id u ->
                     x = set_is_admin false u)
       /\ (exists adm, adm ∈ users db'
                       /\ User.email adm = "admin@biosphere.ru"
                       /\ User.is_admin adm = true).
Proof.
  intros Hids Hreg Hfirst Hh.
  rewrite register_admin_run in Hreg.
  destruct (email_taken _ _); [done|].
  destruct (negb _) eqn:Hs; [done|].
  apply negb_false_iff, String.eqb_eq in Hs.
  destruct (get_password_hash rnd _); [done|].
  injection Hreg as Hu Hdb. rewrite Hu in Hdb. subst db. simpl in Hfirst.
  assert (User.email u = "admin@biosfera.ru") as Hmail by by subst u.
  assert (User.is_admin u = true) as Hadm by by subst u.
  assert (User.id u = next_id (users db0)) as Hkey by by subst u.
  split; [done|]. split; [done|].
  rewrite create_admin_run, Hh. eexists. split; [reflexivity|]. simpl.
  set (us := (users db0 ++ [u])%list) in *.
  assert (u ∈ us) as Hin by (apply elem_of_app; right; by left).
  assert (NoDup (User.id <$> us)) as Hnd.
  { unfold us. rewrite fmap_app. apply NoDup_app. split; [done|].
    split; [|apply NoDup_singleton].
    intros k Hk ->%list_elem_of_singleton. rewrite Hkey in Hk.
    by apply next_id_fresh in Hk. }
  assert (demoted us = update_row (User.id u) (set_is_admin false) us) as Hd.
  { unfold demoted. rewrite Hfirst, Hmail. done. }
  assert (forall x, row_of (demoted us) (User.id u) x
                    <-> x = set_is_admin false u) as Hrow.
  { intros x. rewrite Hd. by apply update_row_same. }
  assert (forall x, row_of (bootstrapped h (demoted us)) (User.id u) x
                    <-> x = set_is_admin false u) as Hfin.
  { intros x. rewrite <- Hrow. apply bootstrapped_other.
    - intros e He Hm Hk.
      assert (e = set_is_admin false u) as -> by (by apply Hrow).
      simpl in Hm. congruence.
    - exists (set_is_admin false u). by apply Hrow. }
  split; [by apply (Hfin (set_is_admin false u))|].
  split; [intros x Hx Hk; by apply Hfin|].
  unfold bootstrapped.
  destruct (List.find (by_email _) _) as [e|] eqn:E.
  - apply find_some in E as [He%list_elem_of_In Hm].
    apply String.eqb_eq in Hm.
    eexists. split.
    + do 4 (apply elem_of_update_row; eexists; split; [|reflexivity]).
      exact He.
    + repeat (rewrite Z.eqb_refl; simpl). done.
  - eexists. split; [apply elem_of_app; right; by left|done].
Qed.

End Bootstrap.

(** ** Concrete runs

    The handlers on small stores, with the reference implementations of
    the two libraries and an empty environment. *)

Module Runs.
Import Reference Sample.

Lemma db_two_unique_emails : unique_emails db_two.
Proof. unfold unique_emails. simpl. apply (bool_decide_unpack _). reflexivity. Qed.

Lemma db_two_unique_ids : unique_ids db_two.
Proof. unfold unique_ids. simpl. apply (bool_decide_unpack _). reflexivity. Qed.

Lemma register_never_admin_witness :
  get_db
    (register (UserCreate.Build "Eve" "eve@x.com" "+300" "pw" (Some true))
       "salt") empty_db
  = (inr eve, db_eve)
  /\ User.is_admin eve = false
  /\ users db_eve = (users empty_db ++ [eve])%list
  /\ get_db
       (register (UserCreate.Build "Eve" "eve@x.com" "+300" "pw" None) "salt")
       empty_db
     = (inr eve, db_eve).
Proof.
  split; [reflexivity|].
  apply (register_never_admin "Eve" "eve@x.com" "+300" "pw" "salt"
           (Some true) empty_db db_eve eve).
  reflexivity.
Defined.

Lemma register_duplicate_email_witness :
  get_db
    (register (UserCreate.Build "Mallory" "a@x.com" "+400" "x" (Some true))
       "salt") db_two
  = (inl email_registered, db_two)
  /\ get_db
       (register_admin
          (UserCreate.Build "Mallory" "a@x.com" "+400" "x" (Some true))
          "salt") db_two
     = (inl email_registered, db_two)
  /\ status_of email_registered = Some 400.
Proof.
  apply (register_duplicate_email
           (UserCreate.Build "Mallory" "a@x.com" "+400" "x" (Some true))
           "salt" db_two alice).
  - simpl. left.
  - reflexivity.
Defined.

(** C3 as stated fails: the email [a@x.com] is not the sentinel, yet
    admin registration with it is answered with HTTP 400, not 403,
    because an account already has that email. *)
Lemma register_admin_taken_email_counterexample :
  "a@x.com" ≠ "admin@biosfera.ru"
  /\ get_db
       (register_admin
          (UserCreate.Build "Mallory" "a@x.com" "+400" "x" None) "salt")
       db_two
     = (inl email_registered, db_two)
  /\ status_of email_registered = Some 400
  /\ status_of email_registered ≠ Some 403.
Proof. repeat split; discriminate. Qed.

Lemma register_admin_non_sentinel_witness :
  "bob@x.com" ≠ "admin@biosfera.ru"
  /\ get_db
       (register_admin
          (UserCreate.Build "Bob" "bob@x.com" "+500" "x" None) "salt")
       db_two
     = (inl access_denied, db_two).
Proof.
  split; [discriminate|].
  apply (register_admin_non_sentinel
           (UserCreate.Build "Bob" "bob@x.com" "+500" "x" None) "salt" db_two).
  discriminate.
Defined.

Lemma login_role_lanes_witness :
  unique_emails db_two
  /\ get_db
       (login ∅ (OAuth2PasswordRequestForm.Build "admin@biosfera.ru" "rootpw")
          1000) db_two
     = (inl admins_use_admin_page, db_two)
  /\ get_db
       (admin_login ∅ (OAuth2PasswordRequestForm.Build "a@x.com" "pw1") 1000)
       db_two
     = (inl admins_only, db_two)
  /\ get_db
       (login ∅ (OAuth2PasswordRequestForm.Build "a@x.com" "wrong") 1000)
       db_two
     = (inl bad_login, db_two).
Proof.
  split; [exact db_two_unique_emails|].
  split; [|split].
  - apply (proj1 (login_role_lanes ∅
             (OAuth2PasswordRequestForm.Build "admin@biosfera.ru" "rootpw")
             1000 db_two db_two_unique_emails) root).
    + simpl. right. left.
    + reflexivity.
    + reflexivity.
    + reflexivity.
  - apply (proj1 (login_role_lanes ∅
             (OAuth2PasswordRequestForm.Build "a@x.com" "pw1")
             1000 db_two db_two_unique_emails) alice).
    + simpl. left.
    + reflexivity.
    + reflexivity.
    + reflexivity.
  - apply (proj1 (proj2 (login_role_lanes ∅
             (OAuth2PasswordRequestForm.Build "a@x.com" "wrong")
             1000 db_two db_two_unique_emails)) alice).
    + simpl. left.
    + reflexivity.
    + reflexivity.
Defined.

(** C4 as stated fails.  A wrong password with a NUL byte makes the
    hasher raise, and both lanes answer with that exception, not with
    the HTTP 401; so does any password for an account whose stored
    hash is not recognised. *)
Lemma login_wrong_password_counterexample :
  unique_emails db_two
  /\ @verify_password strict_bcrypt nul_password (User.password_hash alice)
     ≠ inr true
  /\ get_db
       (@login strict_bcrypt ref_jose ∅
          (OAuth2PasswordRequestForm.Build "a@x.com" nul_password) 1000)
       db_two
     = (inl (HandlerError "PasswordValueError"), db_two)
  /\ get_db
       (@admin_login strict_bcrypt ref_jose ∅
          (OAuth2PasswordRequestForm.Build "a@x.com" nul_password) 1000)
       db_two
     = (inl (HandlerError "PasswordValueError"), db_two)
  /\ get_db
       (login ∅ (OAuth2PasswordRequestForm.Build "d@x.com" "wrong") 1000)
       (with_users [dave])
     = (inl UnknownHashError, with_users [dave])
  /\ status_of (HandlerError "PasswordValueError") ≠ Some 401
  /\ status_of UnknownHashError ≠ Some 401.
Proof.
  split; [exact db_two_unique_emails|].
  repeat split; discriminate.
Qed.

Lemma token_round_trip_witness :
  unique_ids db_two
  /\ alice ∈ users db_two
  /\ get_db
       (get_current_user ∅
          (create_access_token ∅ {["sub" := JStr (Py.str (User.id alice))]}
             None 1000)
          1000) db_two
     = (inr alice, db_two).
Proof.
  split; [exact db_two_unique_ids|].
  split; [simpl; left|].
  apply (token_round_trip ∅ alice db_two 1000 1000).
  - exact db_two_unique_ids.
  - simpl. left.
  - lia.
Defined.

(** C6 as stated fails: on the stored string [not-a-hash] the call
    raises, and this is so whatever the bcrypt handler does. *)
Lemma verify_password_counterexample :
  verify_password "pw1" "not-a-hash" = inl UnknownHashError
  /\ ~ (exists B : Bcrypt,
          forall plain hashed : string,
            exists b : bool, @verify_password B plain hashed = inr b).
Proof.
  split; [reflexivity|].
  intros [B HB]. destruct (HB "pw1" "not-a-hash") as [b Hb].
  discriminate Hb.
Qed.

(** C10 as stated fails.  From an empty store: the bootstrap script
    runs, then [admin@biosfera.ru] registers as admin, then the script
    runs again.  The first admin row is the script's own account, so
    the registered admin keeps [is_admin == true]. *)
Lemma create_admin_second_admin_counterexample :
  get_db (create_admin "r1") empty_db
  = (inr tt, with_users [bootstrap_admin])
  /\ get_db (register_admin sentinel_request "r2")
       (with_users [bootstrap_admin])
     = (inr (sentinel_admin 2),
        with_users [bootstrap_admin; sentinel_admin 2])
  /\ get_db (create_admin "r3")
       (with_users [bootstrap_admin; sentinel_admin 2])
     = (inr tt, with_users [bootstrap_admin; sentinel_admin 2])
  /\ User.is_admin (sentinel_admin 2) = true.
Proof. repeat split. Qed.

Lemma create_admin_demotes_registered_admin_witness :
  unique_ids (with_users [alice])
  /\ get_db (register_admin sentinel_request "r2") (with_users [alice])
     = (inr (sentinel_admin 2), with_users [alice; sentinel_admin 2])
  /\ get_db (create_admin "r3") (with_users [alice; sentinel_admin 2])
     = (inr tt,
        with_users
          [alice; set_is_admin false (sentinel_admin 2);
           {| User.id := 3; User.name := "Admin";
              User.email := "admin@biosphere.ru";
              User.phone := "0000000000";
              User.password_hash := "$2b$ADMINBIO";
              User.is_admin := true |}])
  /\ User.email (sentinel_admin 2) = "admin@biosfera.ru"
  /\ User.is_admin (sentinel_admin 2) = true
  /\ exists db',
       get_db (create_admin "r3") (with_users [alice; sentinel_admin 2])
       = (inr tt, db')
       /\ set_is_admin false (sentinel_admin 2) ∈ users db'
       /\ (forall x, x ∈ users db' ->
                     User.id x = User.id (sentinel_admin 2) ->
                     x = set_is_admin false (sentinel_admin 2))
       /\ (exists adm, adm ∈ users db'
                       /\ User.email adm = "admin@biosphere.ru"
                       /\ User.is_admin adm = true).
Proof.
  assert (unique_ids (with_users [alice])) as Hids.
  { unfold unique_ids. simpl. apply (bool_decide_unpack _). reflexivity. }
  split; [exact Hids|].
  split; [reflexivity|]. split; [reflexivity|].
  apply (create_admin_demotes_registered_admin sentinel_request "r2" "r3"
           "$2b$ADMINBIO" (with_users [alice])
           (with_users [alice; sentinel_admin 2]) (sentinel_admin 2)).
  - exact Hids.
  - reflexivity.
  - reflexivity.
  - reflexivity.
Defined.

(** The scenario of the specification: register, a login with a wrong
    password, a login with the right one, and the token resolved back
    to the account. *)
Example scenario_register :
  get_db
    (register (UserCreate.Build "A" "a@x.com" "+100" "pw1" None) "salt")
    empty_db
  = (inr (set_name "A" alice), with_users [set_name "A" alice]).
Proof. reflexivity. Qed.

Example scenario_wrong_password :
  fst (get_db
         (login ∅ (OAuth2PasswordRequestForm.Build "a@x.com" "wrong") 1000)
         db_two)
  = inl bad_login.
Proof. reflexivity. Qed.

Example scenario_login :
  fst (get_db
         (login ∅ (OAuth2PasswordRequestForm.Build "a@x.com" "pw1") 1000)
         db_two)
  = inr {| access_token := "supersecret.HS256.605800.s1";
           token_type := "bearer" |}.
Proof. vm_compute. reflexivity. Qed.

Example scenario_authenticate :
  get_db (get_current_user ∅ "supersecret.HS256.605800.s1" 2000) db_two
  = (inr alice, db_two).
Proof. vm_compute. reflexivity. Qed.

Example scenario_expired :
  get_db (get_current_user ∅ "supersecret.HS256.605800.s1" 605801) db_two
  = (inl credentials_exception, db_two).
Proof. vm_compute. reflexivity. Qed.

Example scenario_forged_subject :
  get_db (get_current_user ∅ "supersecret.HS256.605800.sabc" 2000) db_two
  = (inl ValueError, db_two).
Proof. vm_compute. reflexivity. Qed.

End Runs.


(** * Further properties of the handlers *)

(** ** Registration, login and tokens together *)

(** The contract of the bcrypt handler seen through the two bare calls
    of [auth.py].  It is an assumption about passlib, not a fact about
    the handlers; it serves to compose them. *)
Lemma verify_own_hash_aux `{!Bcrypt} (rnd password h : string) :
  get_password_hash rnd password = inr h ->
  verify_password password h = inr true.
Proof.
  unfold get_password_hash, pwd_context_hash, verify_password,
    pwd_context_verify.
  intros Hh. rewrite (bcrypt_hash_identify _ _ _ Hh).
  by apply (bcrypt_verify_hash rnd).
Qed.

Section Accounts.

Context `{!Bcrypt} `{!Jose}.
Context (environ : gmap string string).

Lemma create_access_token_claims (s : string) (delta : option Z)
    (utcnow : Z) :
  create_access_token environ {["sub" := JStr s]} delta utcnow
  = jwt_encode (claims_of s (utcnow + lifetime delta)) (SECRET_KEY environ)
      "HS256".
Proof.
  unfold create_access_token, lifetime, timedelta_minutes,
    ACCESS_TOKEN_EXPIRE_MINUTES, ALGORITHM, claims_of.
  destruct delta as [d|]; [|done]. by destruct (d =? 0)%Z.
Qed.

Lemma resolve_issued (a : User.t) (db : Db) (exp t : Z) :
  unique_ids db -> a ∈ users db -> t <= exp ->
  get_db
    (get_current_user environ
       (jwt_encode (claims_of (Py.str (User.id a)) exp) (SECRET_KEY environ)
          "HS256") t) db
  = (inr a, db).
Proof.
  intros Hu Ha Ht. rewrite get_current_user_run. unfold ALGORITHM.
  rewrite jwt_decode_encode by (by apply claims_of_valid).
  unfold claims_of. rewrite lookup_insert_ne, lookup_singleton_eq by done.
  simpl. rewrite PyFacts.int_str. by rewrite find_by_id.
Qed.

Lemma appended_unique_ids (db : Db) (u : User.t) :
  unique_ids db -> User.id u = next_id (users db) ->
  unique_ids (set_users (users db ++ [u]) db).
Proof.
  unfold unique_ids. simpl. intros Hnd Hk.
  rewrite fmap_app. apply NoDup_app. split; [done|].
  split; [|apply NoDup_singleton].
  intros k Hin ->%list_elem_of_singleton. rewrite Hk in Hin.
  by apply next_id_fresh in Hin.
Qed.

Lemma appended_unique_emails (db : Db) (u : User.t) :
  unique_emails db -> email_taken db (User.email u) = false ->
  unique_emails (set_users (users db ++ [u]) db).
Proof.
  unfold unique_emails. simpl. intros Hnd Hfree.
  rewrite fmap_app. apply NoDup_app. split; [done|].
  split; [|apply NoDup_singleton].
  intros e (a & Hea & Ha)%list_elem_of_fmap ->%list_elem_of_singleton.
  assert (email_taken db (User.email u) = true) as Ht
    by (apply email_taken_spec; eauto).
  congruence.
Qed.

(** Both registration operations keep the primary key and the email
    column free of duplicates, whatever their outcome. *)
Theorem registration_keeps_keys_unique
    (user : UserCreate.t) (rnd : string) (db : Db) :
  unique_ids db -> unique_emails db ->
  (unique_ids (get_db (register user rnd) db).2
   /\ unique_emails (get_db (register user rnd) db).2)
  /\ (unique_ids (get_db (register_admin user rnd) db).2
      /\ unique_emails (get_db (register_admin user rnd) db).2).
Proof.
  intros Hi He. rewrite register_run, register_admin_run.
  destruct (email_taken db (UserCreate.email user)) eqn:Ht; [done|].
  split.
  - destruct (get_password_hash _ _); [done|]. simpl.
    split; [by apply appended_unique_ids|by apply appended_unique_emails].
  - destruct (negb _); [done|].
    destruct (get_password_hash _ _); [done|]. simpl.
    split; [by apply appended_unique_ids|by apply appended_unique_emails].
Qed.

(** An account that [POST /auth/register] has just created can log in:
    the non-admin lane accepts its email and password and issues a
    token, that token resolves to the account for seven days, and the
    admin lane refuses the same credentials with HTTP 403. *)
Theorem register_then_login
    (user : UserCreate.t) (rnd : string) (db db' : Db) (u : User.t)
    (utcnow t : Z) :
  unique_ids db -> unique_emails db ->
  get_db (register user rnd) db = (inr u, db') ->
  utcnow <= t <= utcnow + 7 * 24 * 60 * 60 ->
  let form :=
    OAuth2PasswordRequestForm.Build (UserCreate.email user)
      (UserCreate.password user) in
  get_db (login environ form utcnow) db'
  = (inr (token_for environ u utcnow), db')
  /\ get_db
       (get_current_user environ (access_token (token_for environ u utcnow)) t)
       db'
     = (inr u, db')
  /\ get_db (admin_login environ form utcnow) db' = (inl admins_only, db').
Proof.
  intros Hi He Hreg Ht form.
  rewrite register_run in Hreg.
  destruct (email_taken db (UserCreate.email user)) eqn:Hfree; [done|].
  destruct (get_password_hash rnd _) as [|h] eqn:Hh; [done|].
  injection Hreg as Hu Hdb. rewrite Hu in Hdb.
  assert (User.email u = UserCreate.email user) as Hmail by by subst u.
  assert (User.password_hash u = h) as Hhash by by subst u.
  assert (User.is_admin u = false) as Hadm by by subst u.
  assert (User.id u = next_id (users db)) as Hkey by by subst u.
  assert (unique_ids db') as Hi'
    by (subst db'; by apply appended_unique_ids).
  assert (unique_emails db') as He'.
  { subst db'. apply appended_unique_emails; [done|]. by rewrite Hmail. }
  assert (u ∈ users db') as Hin.
  { subst db'. simpl. apply elem_of_app. right. by left. }
  assert (List.find (by_email (UserCreate.email user)) (users db') = Some u)
    as Hfind by (rewrite <- Hmail; by apply find_by_email).
  assert (verify_password (UserCreate.password user) (User.password_hash u)
          = inr true) as Hv.
  { rewrite Hhash. by apply (verify_own_hash_aux rnd). }
  split; [|split].
  - rewrite login_run. simpl. by rewrite Hfind, Hv, Hadm.
  - unfold token_for. simpl. rewrite create_access_token_claims.
    apply resolve_issued; [done..|]. simpl. lia.
  - rewrite admin_login_run. simpl. by rewrite Hfind, Hv, Hadm.
Qed.

(** The two login lanes exclude each other: credentials the non-admin
    lane accepts are refused by the admin lane with HTTP 403, and the
    other way round; the tokens are issued to the account the email
    resolves to. *)
Theorem login_lanes_exclusive
    (form_data : OAuth2PasswordRequestForm.t) (utcnow : Z) (db : Db) :
  (forall response db',
     get_db (login environ form_data utcnow) db = (inr response, db') ->
     db' = db
     /\ get_db (admin_login environ form_data utcnow) db
        = (inl admins_only, db)
     /\ exists u, u ∈ users db
                  /\ User.email u = OAuth2PasswordRequestForm.username form_data
                  /\ User.is_admin u = false
                  /\ response = token_for environ u utcnow)
  /\ (forall response db',
        get_db (admin_login environ form_data utcnow) db = (inr response, db') ->
        db' = db
        /\ get_db (login environ form_data utcnow) db
           = (inl admins_use_admin_page, db)
        /\ exists u, u ∈ users db
                     /\ User.email u
                        = OAuth2PasswordRequestForm.username form_data
                     /\ User.is_admin u = true
                     /\ response = token_for environ u utcnow).
Proof.
  rewrite login_run, admin_login_run.
  destruct (List.find _ _) as [u|] eqn:E; [|done].
  apply find_some in E as [Hu%list_elem_of_In Hm].
  apply String.eqb_eq in Hm.
  destruct (verify_password _ _) as [|[]]; [done| |done].
  destruct (User.is_admin u) eqn:Ha; split; try done.
  - intros response db' [= <- <-]. repeat split. by exists u.
  - intros response db' [= <- <-]. repeat split. by exists u.
Qed.


(** A token issued with a lifetime [d] resolves to its account from
    issuance until [d] seconds later.  A lifetime of zero is not an
    immediate expiry: a zero [timedelta] is falsy, so the token gets
    the default seven days. *)
Theorem token_custom_lifetime
    (a : User.t) (db : Db) (d utcnow t : Z) :
  unique_ids db -> a ∈ users db ->
  utcnow <= t <= utcnow + (if (d =? 0)%Z then 7 * 24 * 60 * 60 else d) ->
  get_db
    (get_current_user environ
       (create_access_token environ
          {["sub" := JStr (Py.str (User.id a))]} (Some d) utcnow)
       t) db
  = (inr a, db)
  /\ (d = 0 ->
      create_access_token environ
        {["sub" := JStr (Py.str (User.id a))]} (Some d) utcnow
      = create_access_token environ
          {["sub" := JStr (Py.str (User.id a))]} None utcnow).
Proof.
  intros Hu Ha Ht. split.
  - rewrite create_access_token_claims.
    apply resolve_issued; [done..|]. simpl. lia.
  - intros ->. by rewrite !create_access_token_claims.
Qed.

End Accounts.

(** ** The bootstrap script, further *)

Section BootstrapMore.

Context `{!Bcrypt} `{!Jose}.
Context (environ : gmap string string).

Lemma update_row_ids key f us :
  (forall y, User.id (f y) = User.id y) ->
  User.id <$> update_row key f us = User.id <$> us.
Proof.
  intros Hf. unfold update_row. rewrite <- list_fmap_compose.
  apply list_fmap_ext. intros i x _. simpl.
  by destruct (User.id x =? key)%Z.
Qed.

Lemma update_row_emails key f us :
  (forall y, User.email (f y) = User.email y) ->
  User.email <$> update_row key f us = User.email <$> us.
Proof.
  intros Hf. unfold update_row. rewrite <- list_fmap_compose.
  apply list_fmap_ext. intros i x _. simpl.
  by destruct (User.id x =? key)%Z.
Qed.

Lemma find_fmap_stable {A} (p : A -> bool) (g : A -> A) (l : list A) :
  (forall x, p (g x) = p x) ->
  List.find p (g <$> l) = g <$> List.find p l.
Proof.
  intros Hp. induction l as [|x l IH]; [done|].
  rewrite fmap_cons. simpl. rewrite Hp. by destruct (p x).
Qed.

Lemma find_append {A} (p : A -> bool) (l l' : list A) :
  List.find p (l ++ l')
  = match List.find p l with Some x => Some x | None => List.find p l' end.
Proof. induction l as [|x l IH]; simpl; [done|]. by destruct (p x). Qed.

Lemma find_update_row_email key f us email :
  (forall y, User.email (f y) = User.email y) ->
  List.find (by_email email) (update_row key f us)
  = (fun u => if (User.id u =? key)%Z then f u else u)
      <$> List.find (by_email email) us.
Proof.
  intros Hf. apply find_fmap_stable. intros x. unfold by_email.
  destruct (User.id x =? key)%Z; by rewrite ?Hf.
Qed.

Lemma bootstrapped_four h key us :
  update_row key (set_phone "0000000000")
    (update_row key (set_name "Admin")
       (update_row key (set_password_hash h)
          (update_row key (set_is_admin true) us)))
  = update_row key (as_bootstrap h) us.
Proof.
  unfold update_row. rewrite <- !list_fmap_compose.
  apply list_fmap_ext. intros i x _. simpl.
  unfold compose.
  destruct (User.id x =? key)%Z eqn:E; simpl; rewrite ?E; simpl;
    rewrite ?E; simpl; rewrite ?E; done.
Qed.

Lemma demoted_ids us : User.id <$> demoted us = User.id <$> us.
Proof.
  unfold demoted. destruct (List.find _ _); [|done].
  destruct (negb _); [|done]. by apply update_row_ids.
Qed.

Lemma demoted_emails us : User.email <$> demoted us = User.email <$> us.
Proof.
  unfold demoted. destruct (List.find _ _); [|done].
  destruct (negb _); [|done]. by apply update_row_emails.
Qed.

(** The account the script leaves behind for [admin@biosphere.ru]. *)
Lemma bootstrapped_account h us :
  exists adm,
    List.find (by_email "admin@biosphere.ru") (bootstrapped h us) = Some adm
    /\ User.email adm = "admin@biosphere.ru"
    /\ User.is_admin adm = true
    /\ User.password_hash adm = h
    /\ User.name adm = "Admin"
    /\ User.phone adm = "0000000000".
Proof.
  unfold bootstrapped.
  destruct (List.find (by_email _) us) as [e|] eqn:E.
  - rewrite bootstrapped_four, find_update_row_email, E by done.
    simpl. rewrite Z.eqb_refl. eexists. split; [done|].
    apply find_some in E as [_ Hm]. apply String.eqb_eq in Hm.
    by repeat split.
  - eexists. split; [by rewrite find_append, E|]. by repeat split.
Qed.

Lemma bootstrapped_ids h us :
  NoDup (User.id <$> us) -> NoDup (User.id <$> bootstrapped h us).
Proof.
  intros Hnd. unfold bootstrapped. destruct (List.find _ _).
  - rewrite bootstrapped_four, update_row_ids; done.
  - rewrite fmap_app. apply NoDup_app. split; [done|].
    split; [|apply NoDup_singleton].
    intros k Hin ->%list_elem_of_singleton. by apply next_id_fresh in Hin.
Qed.

Lemma bootstrapped_emails h us :
  NoDup (User.email <$> us) -> NoDup (User.email <$> bootstrapped h us).
Proof.
  intros Hnd. unfold bootstrapped.
  destruct (List.find _ _) eqn:E.
  - rewrite bootstrapped_four, update_row_emails; done.
  - rewrite fmap_app. apply NoDup_app. split; [done|].
    split; [|apply NoDup_singleton].
    intros m (x & Hm & Hx)%list_elem_of_fmap ->%list_elem_of_singleton.
    simpl in Hm.
    apply (proj1 (find_none_iff _ _) E) in Hx.
    unfold by_email in Hx. rewrite <- Hm, String.eqb_refl in Hx. done.
Qed.

(** After a run of the bootstrap script in which hashing succeeds, the
    account [admin@biosphere.ru] exists with name [Admin], phone
    [0000000000] and the admin flag, and its credentials work: the
    admin lane issues it a token for the password [ADMINBIO], the
    non-admin lane answers HTTP 403. *)
Theorem create_admin_then_admin_login
    (rnd h : string) (utcnow : Z) (db : Db) :
  get_password_hash rnd "ADMINBIO" = inr h ->
  let db' := (get_db (create_admin rnd) db).2 in
  let form :=
    OAuth2PasswordRequestForm.Build "admin@biosphere.ru" "ADMINBIO" in
  exists adm,
    adm ∈ users db'
    /\ User.email adm = "admin@biosphere.ru"
    /\ User.is_admin adm = true
    /\ User.name adm = "Admin"
    /\ User.phone adm = "0000000000"
    /\ get_db (admin_login environ form utcnow) db'
       = (inr (token_for environ adm utcnow), db')
    /\ get_db (login environ form utcnow) db'
       = (inl admins_use_admin_page, db').
Proof.
  intros Hh db' form. subst db' form.
  rewrite create_admin_run, Hh. simpl.
  destruct (bootstrapped_account h (demoted (users db)))
    as (adm & Hfind & Hmail & Hadm & Hhash & Hname & Hphone).
  exists adm. rewrite login_run, admin_login_run. simpl.
  rewrite Hfind, Hhash, (verify_own_hash_aux rnd "ADMINBIO" h Hh), Hadm.
  apply find_some in Hfind as [Hin%list_elem_of_In _].
  by repeat split.
Qed.

(** The bootstrap script keeps the primary key and the email column of
    [users] free of duplicates and does not touch the other tables. *)
Theorem create_admin_keeps_keys_unique (rnd : string) (db : Db) :
  unique_ids db -> unique_emails db ->
  let db' := (get_db (create_admin rnd) db).2 in
  unique_ids db' /\ unique_emails db'
  /\ reviews db' = reviews db
  /\ questions db' = questions db
  /\ specialists db' = specialists db.
Proof.
  intros Hi He db'. subst db'. rewrite create_admin_run. simpl.
  destruct (get_password_hash rnd "ADMINBIO") as [|h]; [done|].
  unfold unique_ids, unique_emails in *. simpl.
  split; [|split; [|done]].
  - apply bootstrapped_ids. by rewrite demoted_ids.
  - apply bootstrapped_emails. by rewrite demoted_emails.
Qed.

(** The bootstrap script never raises.  When hashing the password
    fails, the exception is swallowed and the rollback leaves the store
    exactly as it was, a demotion already made included. *)
Theorem create_admin_swallows_errors (rnd : string) (db : Db) :
  (get_db (create_admin rnd) db).1 = inr tt
  /\ (forall e,
        get_password_hash rnd "ADMINBIO" = inl e ->
        (get_db (create_admin rnd) db).2 = db).
Proof.
  rewrite create_admin_run. split; [done|]. by intros e ->.
Qed.

(** The script takes the admin flag from one row at most.  An admin
    that is not the first admin row of the table is still an admin after
    the run, with its key and email unchanged. *)
Theorem create_admin_keeps_other_admins
    (rnd : string) (db : Db) (a x : User.t) :
  List.find User.is_admin (users db) = Some a ->
  x ∈ users db ->
  User.is_admin x = true ->
  User.id x ≠ User.id a ->
  exists x',
    x' ∈ users (get_db (create_admin rnd) db).2
    /\ User.id x' = User.id x
    /\ User.email x' = User.email x
    /\ User.is_admin x' = true.
Proof.
  intros Hfirst Hx Hadm Hne. rewrite create_admin_run.
  destruct (get_password_hash rnd "ADMINBIO") as [|h]; [by exists x|].
  simpl.
  assert (x ∈ demoted (users db)) as Hd.
  { unfold demoted. rewrite Hfirst. destruct (negb _); [|done].
    apply elem_of_update_row. exists x. split; [done|].
    by rewrite (proj2 (Z.eqb_neq _ _) Hne). }
  unfold bootstrapped. destruct (List.find (by_email _) _) as [e|].
  - rewrite bootstrapped_four.
    exists (if (User.id x =? User.id e)%Z then as_bootstrap h x else x).
    split; [apply elem_of_update_row; by exists x|].
    by destruct (User.id x =? User.id e)%Z.
  - exists x. split; [|done]. apply elem_of_app. by left.
Qed.

End BootstrapMore.

(** ** The routes of [main.py] *)

Section Routes.

Context `{!Bcrypt} `{!Jose}.
Context (environ : gmap string string).

Lemma oauth2_scheme_bearer (token : string) :
  oauth2_scheme (bearer token) = inr token.
Proof. reflexivity. Qed.

(** Once [POST /admin/clear_all] has run, nobody gets in: both login
    lanes answer HTTP 401 to every email and password, and no token
    resolves to an account any more, [get_current_user] ending in an
    error for every token. *)
Theorem clear_all_locks_everyone_out
    (request : Request) (db : Db)
    (form_data : OAuth2PasswordRequestForm.t) (token : string) (utcnow : Z) :
  let db' := (post_admin_clear_all request db).2 in
  get_db (login environ form_data utcnow) db' = (inl bad_login, db')
  /\ get_db (admin_login environ form_data utcnow) db' = (inl bad_login, db')
  /\ exists e,
       get_db (get_current_user environ token utcnow) db' = (inl e, db').
Proof.
  simpl. rewrite login_run, admin_login_run, get_current_user_run. simpl.
  split; [done|]. split; [done|].
  destruct (jwt_decode _ _ _ _) as [|payload]; [eauto|].
  destruct (payload !! "sub") as [v|]; [|eauto].
  destruct (int_of_claim v); eauto.
Qed.

(** The admin routes want a bearer token: a request with no
    [Authorization] header, or with a scheme other than [bearer], is
    answered with HTTP 401 before any handler runs, and the store stays
    as it was. *)
Theorem admin_routes_require_bearer
    {F : Type} (truediv : Z -> Z -> F) (fmul : F -> Z -> F)
    (round1 : F -> F) (isoformat : Z -> string)
    (request : Request) (utcnow now : Z) (db : Db) :
  match authorization request with
  | None => True
  | Some header => lower (partition_space header).1 ≠ "bearer"
  end ->
  post_admin_cleanup environ request utcnow now db
  = (inl not_authenticated, db)
  /\ get_admin_statistics truediv fmul round1 isoformat environ request
       utcnow now db
     = (inl not_authenticated, db)
  /\ get_admin_export truediv fmul isoformat environ request utcnow now db
     = inl (ExportHTTP not_authenticated)
  /\ status_of not_authenticated = Some 401.
Proof.
  intros Hreq.
  assert (oauth2_scheme request = inl not_authenticated) as Ho.
  { unfold oauth2_scheme. destruct (authorization request) as [hd|]; [|done].
    destruct (partition_space hd) as [scheme param]. simpl in Hreq.
    apply String.eqb_neq in Hreq. rewrite Hreq.
    by rewrite orb_true_r. }
  unfold post_admin_cleanup, get_admin_statistics, get_admin_export,
    with_current_user.
  by rewrite Ho.
Qed.

(** A token issued to an account that is no admin opens none of the
    admin routes: cleanup, statistics and export answer HTTP 403, and
    nothing is deleted. *)
Theorem admin_routes_refuse_non_admin
    {F : Type} (truediv : Z -> Z -> F) (fmul : F -> Z -> F)
    (round1 : F -> F) (isoformat : Z -> string)
    (a : User.t) (issued utcnow now : Z) (db : Db) :
  unique_ids db -> a ∈ users db -> User.is_admin a = false ->
  issued <= utcnow <= issued + 7 * 24 * 60 * 60 ->
  let request := bearer (access_token (token_for environ a issued)) in
  post_admin_cleanup environ request utcnow now db
  = (inl insufficient_rights, db)
  /\ get_admin_statistics truediv fmul round1 isoformat environ request
       utcnow now db
     = (inl insufficient_rights, db)
  /\ get_admin_export truediv fmul isoformat environ request utcnow now db
     = inl (ExportHTTP insufficient_rights)
  /\ status_of insufficient_rights = Some 403.
Proof.
  intros Hu Ha Hadm Ht request. subst request.
  unfold post_admin_cleanup, get_admin_statistics, get_admin_export,
    with_current_user.
  rewrite oauth2_scheme_bearer. unfold token_for. simpl.
  rewrite create_access_token_claims.
  rewrite resolve_issued by (done || (simpl; lia)).
  unfold get_db, cleanup_old_data, get_detailed_statistics, export_data.
  by rewrite Hadm.
Qed.

Lemma filter_all {A} (l : list A) : List.filter (fun _ => true) l = l.
Proof. induction l as [|x l IH]; simpl; [done|]. by rewrite IH. Qed.

Lemma filter_filter {A} (p q : A -> bool) (l : list A) :
  List.filter q (List.filter p l) = List.filter (fun x => p x && q x) l.
Proof.
  induction l as [|x l IH]; simpl; [done|].
  destruct (p x); simpl; [|done]. destruct (q x); by rewrite IH.
Qed.

Lemma filter_length_split {A} (p : A -> bool) (l : list A) :
  (length (List.filter p l) + length (List.filter (fun x => negb (p x)) l)
   = length l)%nat.
Proof.
  induction l as [|x l IH]; simpl; [done|].
  destruct (p x); simpl; lia.
Qed.

Lemma for_each_delete_reviews (l : list Review.t) (s : Session) :
  for_each l db_delete_review s
  = (inr tt,
     {| committed := committed s;
        working :=
          set_reviews
            (List.filter
               (fun x =>
                  negb (existsb (fun r => (Review.id x =? Review.id r)%Z) l))
               (reviews (working s)))
            (working s) |}).
Proof.
  revert s. induction l as [|r l IH]; intros [c [us rs qs ss]]; simpl.
  - unfold ret. by rewrite filter_all.
  - unfold bind, db_delete_review. simpl. rewrite IH. simpl.
    unfold set_reviews. simpl. rewrite filter_filter.
    do 3 f_equal. apply filter_ext. intros x. by rewrite negb_orb.
Qed.

Lemma for_each_delete_questions (l : list Question.t) (s : Session) :
  for_each l db_delete_question s
  = (inr tt,
     {| committed := committed s;
        working :=
          set_questions
            (List.filter
               (fun x =>
                  negb (existsb (fun q => (Question.id x =? Question.id q)%Z) l))
               (questions (working s)))
            (working s) |}).
Proof.
  revert s. induction l as [|r l IH]; intros [c [us rs qs ss]]; simpl.
  - unfold ret. by rewrite filter_all.
  - unfold bind, db_delete_question. simpl. rewrite IH. simpl.
    unfold set_questions. simpl. rewrite filter_filter.
    do 3 f_equal. apply filter_ext. intros x. by rewrite negb_orb.
Qed.

(** With unique keys, deleting the rows a filter selects leaves the
    rows the filter rejects. *)
Lemma delete_selected {A} (key : A -> Z) (p : A -> bool) (l : list A) :
  NoDup (key <$> l) ->
  List.filter
    (fun x => negb (existsb (fun r => (key x =? key r)%Z) (List.filter p l))) l
  = List.filter (fun x => negb (p x)) l.
Proof.
  intros Hnd. apply filter_ext_in. intros x Hx%list_elem_of_In. f_equal.
  destruct (p x) eqn:Hp.
  - apply existsb_exists. exists x. split; [|apply Z.eqb_refl].
    apply filter_In. split; [by apply list_elem_of_In|done].
  - apply not_true_is_false. intros (r & Hr & Hk)%existsb_exists.
    apply filter_In in Hr as [Hr%list_elem_of_In Hpr].
    apply Z.eqb_eq in Hk.
    assert (x = r) as -> by (by apply (key_inj key l)).
    congruence.
Qed.

Lemma cleanup_run (current_user : User.t) (now : Z) (db : Db) :
  User.is_admin current_user = true ->
  NoDup (Review.id <$> reviews db) ->
  NoDup (Question.id <$> questions db) ->
  get_db (cleanup_old_data current_user now) db
  = (inr
       {| cleanup_status := "success";
          deleted_reviews :=
            Z.of_nat (length (List.filter (expired_review now) (reviews db)));
          deleted_questions :=
            Z.of_nat
              (length (List.filter (expired_question now) (questions db)));
          cleanup_message :=
            "Удалено "
            ++ Py.str
                 (Z.of_nat
                    (length (List.filter (expired_review now) (reviews db))))
            ++ " старых отзывов и "
            ++ Py.str
                 (Z.of_nat
                    (length
                       (List.filter (expired_question now) (questions db))))
            ++ " старых вопросов" |},
     cleaned now db).
Proof.
  intros Hadm Hr Hq.
  unfold get_db, cleanup_old_data. rewrite Hadm. simpl.
  unfold bind at 1. unfold query_reviews at 1. simpl.
  unfold bind at 1. rewrite for_each_delete_reviews. simpl.
  unfold bind at 1. unfold query_questions at 1. simpl.
  unfold bind at 1. rewrite for_each_delete_questions. simpl.
  unfold bind, db_commit, db_close, ret. simpl.
  rewrite (delete_selected Review.id _ _ Hr).
  rewrite (delete_selected Question.id _ _ Hq).
  reflexivity.
Qed.

(** What the cleanup does for an admin, the keys of both tables being
    unique: exactly the reviews and questions that are older than 365
    days and have no reply leave the store, the users and specialists
    stay, and the two numbers of the response are the numbers of rows
    removed. *)
Theorem cleanup_removes_old_unanswered
    (current_user : User.t) (now : Z) (db : Db) :
  User.is_admin current_user = true ->
  NoDup (Review.id <$> reviews db) ->
  NoDup (Question.id <$> questions db) ->
  exists response db',
    get_db (cleanup_old_data current_user now) db = (inr response, db')
    /\ reviews db'
       = List.filter (fun r => negb (expired_review now r)) (reviews db)
    /\ questions db'
       = List.filter (fun q => negb (expired_question now q)) (questions db)
    /\ users db' = users db
    /\ specialists db' = specialists db
    /\ deleted_reviews response
       = Z.of_nat (length (reviews db)) - Z.of_nat (length (reviews db'))
    /\ deleted_questions response
       = Z.of_nat (length (questions db)) - Z.of_nat (length (questions db'))
    /\ cleanup_status response = "success".
Proof.
  intros Hadm Hr Hq. rewrite cleanup_run by done.
  eexists _, _. split; [reflexivity|]. simpl. repeat split.
  - pose proof (filter_length_split (expired_review now) (reviews db)). lia.
  - pose proof (filter_length_split (expired_question now) (questions db)).
    lia.
Qed.

Lemma NoDup_key_filter {A} (key : A -> Z) (p : A -> bool) (l : list A) :
  NoDup (key <$> l) -> NoDup (key <$> List.filter p l).
Proof.
  induction l as [|x l IH]; [done|].
  rewrite fmap_cons, NoDup_cons. intros [Hx Hl]. simpl.
  destruct (p x); [|by apply IH].
  rewrite fmap_cons. apply NoDup_cons. split; [|by apply IH].
  intros (y & Hk & Hy)%list_elem_of_fmap. apply Hx.
  apply list_elem_of_fmap. exists y. split; [done|].
  apply list_elem_of_In. apply list_elem_of_In in Hy.
  by apply filter_In in Hy as [? _].
Qed.

Lemma filter_none {A} (p : A -> bool) (l : list A) :
  (forall x, In x l -> p x = false) -> List.filter p l = [].
Proof.
  induction l as [|x l IH]; simpl; [done|]. intros Hall.
  rewrite (Hall x) by (by left). apply IH. intros y ?. apply Hall. by right.
Qed.

Lemma filter_same {A} (p : A -> bool) (l : list A) :
  (forall x, In x l -> p x = true) -> List.filter p l = l.
Proof.
  induction l as [|x l IH]; simpl; [done|]. intros Hall.
  rewrite (Hall x) by (by left). f_equal. apply IH. intros y ?.
  apply Hall. by right.
Qed.

(** A cleanup leaves nothing for a second one at the same or an
    earlier time: the second run removes no row and reports zero
    deletions. *)
Theorem cleanup_twice
    (current_user : User.t) (now now' : Z) (db : Db) :
  User.is_admin current_user = true ->
  NoDup (Review.id <$> reviews db) ->
  NoDup (Question.id <$> questions db) ->
  now' <= now ->
  let db' := (get_db (cleanup_old_data current_user now) db).2 in
  exists response,
    get_db (cleanup_old_data current_user now') db' = (inr response, db')
    /\ deleted_reviews response = 0
    /\ deleted_questions response = 0.
Proof.
  intros Hadm Hr Hq Hle db'. subst db'.
  rewrite (cleanup_run _ now) by done. simpl.
  rewrite cleanup_run;
    [|done|by apply NoDup_key_filter|by apply NoDup_key_filter].
  assert (forall r, expired_review now r = false ->
                    expired_review now' r = false) as Hmr.
  { intros r. unfold expired_review, old_unanswered_review.
    destruct (Review.admin_reply r); rewrite ?andb_false_r; [done|].
    rewrite !andb_true_r, !Z.ltb_ge. lia. }
  assert (forall q, expired_question now q = false ->
                    expired_question now' q = false) as Hmq.
  { intros q. unfold expired_question, old_unanswered_question.
    destruct (Question.admin_reply q); rewrite ?andb_false_r; [done|].
    rewrite !andb_true_r, !Z.ltb_ge. lia. }
  assert (List.filter (expired_review now') (reviews (cleaned now db)) = [])
    as Er.
  { apply filter_none. intros r [_ Hk]%filter_In.
    apply Hmr. by apply negb_true_iff. }
  assert (List.filter (expired_question now')
            (questions (cleaned now db)) = []) as Eq.
  { apply filter_none. intros q [_ Hk]%filter_In.
    apply Hmq. by apply negb_true_iff. }
  rewrite Er, Eq.
  assert (cleaned now' (cleaned now db) = cleaned now db) as ->.
  { unfold cleaned at 1. simpl. unfold cleaned. f_equal.
    - apply filter_same. intros r [_ Hk]%filter_In.
      apply negb_true_iff, Hmr. by apply negb_true_iff.
    - apply filter_same. intros q [_ Hk]%filter_In.
      apply negb_true_iff, Hmq. by apply negb_true_iff. }
  eexists. split; [reflexivity|done].
Qed.

End Routes.

(** ** Statistics and export *)

Section ReportFacts.

Context `{!Jose}.
Context {F : Type}.
Context (truediv : Z -> Z -> F) (fmul : F -> Z -> F) (round1 : F -> F).
Context (isoformat : Z -> string).
Context (environ : gmap string string).

Lemma filter_length_le {A} (p q : A -> bool) (l : list A) :
  (forall x, p x = true -> q x = true) ->
  (length (List.filter p l) <= length (List.filter q l))%nat.
Proof.
  intros Hpq. induction l as [|x l IH]; simpl; [done|].
  destruct (p x) eqn:Hp.
  - rewrite (Hpq x Hp). simpl. lia.
  - destruct (q x); simpl; lia.
Qed.

Lemma filter_length_total {A} (p : A -> bool) (l : list A) :
  (length (List.filter p l) <= length l)%nat.
Proof.
  induction l as [|x l IH]; simpl; [done|]. destruct (p x); simpl; lia.
Qed.

Lemma five_star_partition (l : list Review.t) :
  (length (List.filter (fun r => (Review.rating r =? 1)%Z) l)
   + length (List.filter (fun r => (Review.rating r =? 2)%Z) l)
   + length (List.filter (fun r => (Review.rating r =? 3)%Z) l)
   + length (List.filter (fun r => (Review.rating r =? 4)%Z) l)
   + length (List.filter (fun r => (Review.rating r =? 5)%Z) l)
   = length (List.filter rated_1_to_5 l))%nat.
Proof.
  induction l as [|x l IH]; simpl; [done|]. unfold rated_1_to_5 at 1.
  destruct (Z.eqb_spec (Review.rating x) 1),
    (Z.eqb_spec (Review.rating x) 2), (Z.eqb_spec (Review.rating x) 3),
    (Z.eqb_spec (Review.rating x) 4), (Z.eqb_spec (Review.rating x) 5),
    (Z.leb_spec 1 (Review.rating x)), (Z.leb_spec (Review.rating x) 5);
    simpl; lia.
Qed.

(** The statistics of an admin count every review with a rating from 1
    to 5 in [rating_distribution] under its rating, and nothing else:
    the dictionary has exactly the keys 1 to 5, and its five numbers add
    up to the number of such reviews, so to at most [total_reviews]. *)
Theorem statistics_rating_distribution
    (current_user : User.t) (now : Z) (db db' : Db) (stats : Statistics) :
  User.is_admin current_user = true ->
  get_db (get_detailed_statistics truediv fmul round1 isoformat
            current_user now) db
  = (inr stats, db') ->
  (forall i,
     rating_distribution stats !! i
     = if (1 <=? i)%Z && (i <=? 5)%Z
       then Some (len (List.filter (fun r => (Review.rating r =? i)%Z)
                         (reviews db)))
       else None)
  /\ default 0 (rating_distribution stats !! 1)
     + default 0 (rating_distribution stats !! 2)
     + default 0 (rating_distribution stats !! 3)
     + default 0 (rating_distribution stats !! 4)
     + default 0 (rating_distribution stats !! 5)
     = len (List.filter rated_1_to_5 (reviews db))
  /\ len (List.filter rated_1_to_5 (reviews db))
     <= total_reviews (overview stats).
Proof.
  intros Hadm. unfold get_db, get_detailed_statistics. rewrite Hadm. simpl.
  intros [= <- <-]. simpl.
  assert (forall i,
            (<[5:=len (List.filter (fun r => (Review.rating r =? 5)%Z)
                         (reviews db))]>
               (<[4:=len (List.filter (fun r => (Review.rating r =? 4)%Z)
                            (reviews db))]>
                  (<[3:=len (List.filter (fun r => (Review.rating r =? 3)%Z)
                               (reviews db))]>
                     (<[2:=len (List.filter
                                  (fun r => (Review.rating r =? 2)%Z)
                                  (reviews db))]>
                        (<[1:=len (List.filter
                                     (fun r => (Review.rating r =? 1)%Z)
                                     (reviews db))]> (∅ : gmap Z Z))))))
            !! i
            = if (1 <=? i)%Z && (i <=? 5)%Z
              then Some (len (List.filter (fun r => (Review.rating r =? i)%Z)
                                (reviews db)))
              else None) as Hlook.
  { intros i.
    destruct (decide (i = 5)) as [->|N5]; [by rewrite lookup_insert_eq|].
    rewrite lookup_insert_ne by done.
    destruct (decide (i = 4)) as [->|N4]; [by rewrite lookup_insert_eq|].
    rewrite lookup_insert_ne by done.
    destruct (decide (i = 3)) as [->|N3]; [by rewrite lookup_insert_eq|].
    rewrite lookup_insert_ne by done.
    destruct (decide (i = 2)) as [->|N2]; [by rewrite lookup_insert_eq|].
    rewrite lookup_insert_ne by done.
    destruct (decide (i = 1)) as [->|N1]; [by rewrite lookup_insert_eq|].
    rewrite lookup_insert_ne, lookup_empty by done.
    destruct (Z.leb_spec 1 i), (Z.leb_spec i 5); simpl; try done. lia. }
  split; [exact Hlook|]. rewrite !Hlook. simpl. unfold len. split.
  - pose proof (five_star_partition (reviews db)). lia.
  - pose proof (filter_length_total rated_1_to_5 (reviews db)). lia.
Qed.

(** In the statistics of an admin the counts of recent activity are
    nested: what was created in the last 7 days is among what was
    created in the last 30 days, which is among everything; and
    computing the statistics leaves the store as it was. *)
Theorem statistics_recent_counts_nested
    (current_user : User.t) (now : Z) (db db' : Db) (stats : Statistics) :
  User.is_admin current_user = true ->
  get_db (get_detailed_statistics truediv fmul round1 isoformat
            current_user now) db
  = (inr stats, db') ->
  db' = db
  /\ 0 <= reviews_last_week (recent_activity stats)
     <= reviews_last_month (recent_activity stats)
  /\ reviews_last_month (recent_activity stats)
     <= total_reviews (overview stats)
  /\ 0 <= questions_last_week (recent_activity stats)
     <= questions_last_month (recent_activity stats)
  /\ questions_last_month (recent_activity stats)
     <= total_questions (overview stats).
Proof.
  intros Hadm. unfold get_db, get_detailed_statistics. rewrite Hadm. simpl.
  intros [= <- <-]. simpl. unfold len, timedelta_days.
  split; [done|].
  pose proof (filter_length_le
    (fun r => (now - 7 * (24 * 60 * 60 * 1000000) <=? Review.created_at r)%Z)
    (fun r => (now - 30 * (24 * 60 * 60 * 1000000) <=? Review.created_at r)%Z)
    (reviews db)) as Hr.
  pose proof (filter_length_le
    (fun q => (now - 7 * (24 * 60 * 60 * 1000000) <=? Question.created_at q)%Z)
    (fun q => (now - 30 * (24 * 60 * 60 * 1000000) <=? Question.created_at q)%Z)
    (questions db)) as Hq.
  pose proof (filter_length_total
    (fun r => (now - 30 * (24 * 60 * 60 * 1000000) <=? Review.created_at r)%Z)
    (reviews db)) as Hr'.
  pose proof (filter_length_total
    (fun q => (now - 30 * (24 * 60 * 60 * 1000000) <=? Question.created_at q)%Z)
    (questions db)) as Hq'.
  assert (forall c, (now - 7 * (24 * 60 * 60 * 1000000) <=? c)%Z = true ->
                    (now - 30 * (24 * 60 * 60 * 1000000) <=? c)%Z = true)
    as Hmono by (intros c; rewrite !Z.leb_le; lia).
  specialize (Hr (fun r => Hmono _)). specialize (Hq (fun q => Hmono _)).
  lia.
Qed.

(** Entries of a dictionary of counts after a counting loop. *)
Lemma counting_loop {A} (key : A -> string) (l : list A)
    (d : gmap string Z) (p : string) :
  foldl (fun d x => count_up d (key x)) d l !! p
  = match List.filter (fun x => String.eqb (key x) p) l with
    | [] => d !! p
    | hits => Some (default 0 (d !! p) + len hits)
    end.
Proof.
  revert d. induction l as [|x l IH]; intros d; simpl; [done|].
  rewrite IH. unfold count_up.
  destruct (String.eqb_spec (key x) p) as [->|Hne].
  - rewrite lookup_insert_eq. simpl.
    destruct (List.filter _ l) as [|y hits]; simpl; f_equal; unfold len;
      simpl; lia.
  - by rewrite lookup_insert_ne.
Qed.

(** In the statistics of an admin, [specialists_by_position] and
    [specialists_by_workplace] hold, for every name, the number of
    specialists with that position or workplace, and no entry for a
    name nobody has.  A specialist with an empty position is counted
    under the placeholder, as is one with no or an empty workplace. *)
Theorem statistics_specialist_counts
    (current_user : User.t) (now : Z) (db db' : Db) (stats : Statistics)
    (p : string) :
  User.is_admin current_user = true ->
  get_db (get_detailed_statistics truediv fmul round1 isoformat
            current_user now) db
  = (inr stats, db') ->
  specialists_by_position stats !! p
  = match
      List.filter
        (fun s =>
           String.eqb
             (or_default (Some (Specialist.position s)) "Не указана") p)
        (specialists db)
    with
    | [] => None
    | hits => Some (len hits)
    end
  /\ specialists_by_workplace stats !! p
     = match
         List.filter
           (fun s =>
              String.eqb (or_default (Specialist.workplace s) "Не указано") p)
           (specialists db)
       with
       | [] => None
       | hits => Some (len hits)
       end.
Proof.
  intros Hadm. unfold get_db, get_detailed_statistics. rewrite Hadm. simpl.
  intros [= <- <-]. simpl.
  rewrite (counting_loop
             (fun s => or_default (Some (Specialist.position s)) "Не указана")).
  rewrite (counting_loop
             (fun s => or_default (Specialist.workplace s) "Не указано")).
  rewrite lookup_empty. simpl.
  split; by destruct (List.filter _ _).
Qed.

Lemma comprehension_user_entry (us : list User.t) :
  comprehension (@user_entry F) us
  = match us with
    | [] => inr []
    | _ => inl (AttributeError "User" "created_at")
    end.
Proof. by destruct us. Qed.

(** [export_data] cannot deliver the accounts.  For an admin it raises
    [AttributeError] as soon as the users table has a row, because it
    reads [created_at] of a [User]; it returns content only when the
    table is empty. *)
Theorem export_data_fails_on_users
    (current_user : User.t) (now : Z) (db : Db) :
  User.is_admin current_user = true ->
  (users db ≠ [] ->
   export_data truediv fmul isoformat current_user now db
   = inl (AttributeError "User" "created_at"))
  /\ (users db = [] ->
      exists content,
        export_data truediv fmul isoformat current_user now db
        = inr content).
Proof.
  intros Hadm. unfold export_data.
  rewrite Hadm, comprehension_user_entry. simpl.
  destruct (users db); split; try done. eauto.
Qed.

(** [GET /admin/export] never answers with the export: whatever the
    request, the outcome is an error, since a token that resolves to an
    admin proves the users table non-empty.  For an admin who presents
    a token the server issued to them, the error is the
    [AttributeError] of the handler. *)
Theorem export_route_never_succeeds
    (request : Request) (utcnow now : Z) (db : Db) :
  (exists e,
     get_admin_export truediv fmul isoformat environ request utcnow now db
     = inl e)
  /\ (forall a issued,
        unique_ids db -> a ∈ users db -> User.is_admin a = true ->
        issued <= utcnow <= issued + 7 * 24 * 60 * 60 ->
        get_admin_export truediv fmul isoformat environ
          (bearer (access_token (token_for environ a issued))) utcnow now db
        = inl (AttributeError "User" "created_at")).
Proof.
  split.
  - unfold get_admin_export.
    destruct (oauth2_scheme request) as [e|token]; [eauto|].
    rewrite get_current_user_run.
    destruct (jwt_decode _ _ _ _) as [|payload]; [eauto|].
    destruct (payload !! "sub") as [v|]; [|eauto].
    destruct (int_of_claim v); [|eauto].
    destruct (List.find _ _) as [u|] eqn:E; [|eauto].
    apply find_some in E as [Hu _].
    unfold export_data. destruct (User.is_admin u); simpl; [|eauto].
    rewrite comprehension_user_entry.
    destruct (users db); [done|]. eauto.
  - intros a issued Hu Ha Hadm Ht.
    unfold get_admin_export. rewrite oauth2_scheme_bearer.
    unfold token_for. simpl. rewrite create_access_token_claims.
    rewrite resolve_issued by (done || (simpl; lia)).
    unfold export_data. rewrite Hadm, comprehension_user_entry. simpl.
    destruct (users db); [by apply elem_of_nil in Ha|done].
Qed.

End ReportFacts.

(** ** Series of calls *)

Section Histories.

Context `{!Bcrypt} `{!Jose}.
Context (environ : gmap string string).

Lemma email_taken_elem (db : Db) (email : string) :
  email_taken db email = true <-> email ∈ User.email <$> users db.
Proof.
  rewrite email_taken_spec, list_elem_of_fmap. split.
  - intros (a & Ha & <-). by exists a.
  - intros (a & -> & Ha). by exists a.
Qed.

Lemma cleanup_keeps_users (current_user : User.t) (now : Z) (db : Db) :
  users (get_db (cleanup_old_data current_user now) db).2 = users db.
Proof.
  unfold get_db, cleanup_old_data.
  destruct (User.is_admin current_user); [|done]. simpl.
  unfold bind at 1. unfold query_reviews at 1. simpl.
  unfold bind at 1. rewrite for_each_delete_reviews. simpl.
  unfold bind at 1. unfold query_questions at 1. simpl.
  unfold bind at 1. rewrite for_each_delete_questions. simpl.
  reflexivity.
Qed.

Lemma bootstrapped_keeps_emails h us email :
  email ∈ User.email <$> us -> email ∈ User.email <$> bootstrapped h us.
Proof.
  unfold bootstrapped. destruct (List.find _ _).
  - by rewrite bootstrapped_four, update_row_emails.
  - rewrite fmap_app, elem_of_app. by left.
Qed.

(** No call other than [clear_all] frees an email that is taken. *)
Lemma after_call_keeps_email (db : Db) (c : handler_call) (email : string) :
  email_taken db email = true ->
  email_taken (after_call environ db c) email = true.
Proof.
  rewrite !email_taken_elem. intros Hin.
  destruct c as [user rnd|user rnd|form utcnow|form utcnow|token utcnow
                |rnd|current_user now]; simpl.
  - rewrite register_run. destruct (email_taken db _); [done|].
    destruct (get_password_hash _ _); [done|]. simpl.
    rewrite fmap_app, elem_of_app. by left.
  - rewrite register_admin_run. destruct (email_taken db _); [done|].
    destruct (negb _); [done|].
    destruct (get_password_hash _ _); [done|]. simpl.
    rewrite fmap_app, elem_of_app. by left.
  - rewrite login_run. destruct (List.find _ _) as [u|]; [|done].
    destruct (verify_password _ _) as [|[]]; [done| |done].
    by destruct (User.is_admin u).
  - rewrite admin_login_run. destruct (List.find _ _) as [u|]; [|done].
    destruct (verify_password _ _) as [|[]]; [done| |done].
    by destruct (User.is_admin u).
  - rewrite get_current_user_run.
    destruct (jwt_decode _ _ _ _) as [|payload]; [done|].
    destruct (payload !! "sub") as [v|]; [|done].
    destruct (int_of_claim v); [|done]. by destruct (List.find _ _).
  - rewrite create_admin_run.
    destruct (get_password_hash _ _); [done|]. simpl.
    apply bootstrapped_keeps_emails. by rewrite demoted_emails.
  - by rewrite cleanup_keeps_users.
Qed.

Lemma after_calls_keep_email (db : Db) (calls : list handler_call)
    (email : string) :
  email_taken db email = true ->
  email_taken (after_calls environ db calls) email = true.
Proof.
  revert db. induction calls as [|c calls IH]; intros db Ht; [done|].
  simpl. apply IH. by apply after_call_keeps_email.
Qed.

(** The admin-registration path creates one account and then stays
    shut.  What it creates is an admin with the sentinel address; after
    that, whatever calls of [register], [register_admin], [login],
    [admin_login], [get_current_user], [create_admin] and
    [cleanup_old_data] lie in between, every request on this path fails
    and creates nothing: with HTTP 400 for the sentinel address, still
    taken, and with HTTP 400 or 403 for any other.  Only [clear_all],
    which empties the table, is not among these calls. *)
Theorem register_admin_only_once
    (user user' : UserCreate.t) (rnd rnd' : string) (db db' : Db)
    (u : User.t) (later : list handler_call) :
  get_db (register_admin user rnd) db = (inr u, db') ->
  let db'' := after_calls environ db' later in
  User.email u = "admin@biosfera.ru"
  /\ User.is_admin u = true
  /\ get_db (register_admin user' rnd') db''
     = (inl (if String.eqb (UserCreate.email user') "admin@biosfera.ru"
             then email_registered
             else if email_taken db'' (UserCreate.email user')
                  then email_registered else access_denied), db'').
Proof.
  intros Hreg db''. subst db''.
  set (db'' := after_calls environ db' later).
  rewrite register_admin_run in Hreg.
  destruct (email_taken db (UserCreate.email user)); [done|].
  destruct (negb _) eqn:Hs; [done|].
  apply negb_false_iff, String.eqb_eq in Hs.
  destruct (get_password_hash rnd _) as [|h]; [done|].
  injection Hreg as Hu Hdb. rewrite Hu in Hdb.
  assert (User.email u = "admin@biosfera.ru") as Hmail by by subst u.
  assert (User.is_admin u = true) as Hadm by by subst u.
  split; [done|]. split; [done|].
  assert (email_taken db'' "admin@biosfera.ru" = true) as Htaken.
  { unfold db''. apply after_calls_keep_email. apply email_taken_spec. exists u.
    split; [|done]. subst db'. simpl. apply elem_of_app. right. by left. }
  rewrite register_admin_run.
  destruct (String.eqb_spec (UserCreate.email user') "admin@biosfera.ru")
    as [E|E].
  - rewrite E, Htaken. done.
  - simpl. destruct (email_taken db'' (UserCreate.email user')); reflexivity.
Qed.

(** [clear_all] is the exception: after it the path is open again. *)
Lemma register_admin_again_after_clear_all
    (request : Request) (user : UserCreate.t) (rnd h : string) (db : Db) :
  UserCreate.email user = "admin@biosfera.ru" ->
  get_password_hash rnd (UserCreate.password user) = inr h ->
  exists u db',
    get_db (register_admin user rnd) (post_admin_clear_all request db).2
    = (inr u, db')
    /\ User.is_admin u = true.
Proof.
  intros He Hh. rewrite register_admin_run. simpl.
  rewrite He, Hh. simpl. eauto.
Qed.

End Histories.

(** ** Further concrete runs *)

Module MoreRuns.
Import Reference Sample MoreSample.

Lemma db_full_unique_ids : unique_ids db_full.
Proof. apply (bool_decide_unpack _). reflexivity. Qed.

Lemma db_full_review_ids : NoDup (Review.id <$> reviews db_full).
Proof. apply (bool_decide_unpack _). reflexivity. Qed.

Lemma db_full_question_ids : NoDup (Question.id <$> questions db_full).
Proof. apply (bool_decide_unpack _). reflexivity. Qed.

Lemma registration_keeps_keys_unique_witness :
  unique_ids db_two /\ unique_emails db_two
  /\ unique_ids (get_db (register carol_request "salt") db_two).2
  /\ unique_emails (get_db (register_admin sentinel_request "salt") db_two).2.
Proof.
  split; [exact Runs.db_two_unique_ids|].
  split; [exact Runs.db_two_unique_emails|].
  split.
  - apply (registration_keeps_keys_unique carol_request "salt" db_two
             Runs.db_two_unique_ids Runs.db_two_unique_emails).
  - apply (registration_keeps_keys_unique sentinel_request "salt" db_two
             Runs.db_two_unique_ids Runs.db_two_unique_emails).
Defined.

Lemma register_then_login_witness :
  get_db (register carol_request "salt") db_two = (inr carol, db_three)
  /\ get_db
       (login ∅ (OAuth2PasswordRequestForm.Build "c@x.com" "pw3") 1000)
       db_three
     = (inr (token_for ∅ carol 1000), db_three)
  /\ get_db
       (get_current_user ∅ (access_token (token_for ∅ carol 1000)) 5000)
       db_three
     = (inr carol, db_three)
  /\ get_db
       (admin_login ∅ (OAuth2PasswordRequestForm.Build "c@x.com" "pw3") 1000)
       db_three
     = (inl admins_only, db_three).
Proof.
  split; [reflexivity|].
  apply (register_then_login ∅ carol_request "salt" db_two db_three carol
           1000 5000).
  - exact Runs.db_two_unique_ids.
  - exact Runs.db_two_unique_emails.
  - reflexivity.
  - lia.
Defined.

Lemma token_custom_lifetime_witness :
  unique_ids db_two /\ alice ∈ users db_two
  /\ get_db
       (get_current_user ∅
          (create_access_token ∅ {["sub" := JStr (Py.str (User.id alice))]}
             (Some 0) 1000)
          (1000 + 3 * 24 * 60 * 60)) db_two
     = (inr alice, db_two).
Proof.
  split; [exact Runs.db_two_unique_ids|].
  split; [simpl; left|].
  apply (token_custom_lifetime ∅ alice db_two 0 1000
           (1000 + 3 * 24 * 60 * 60)).
  - exact Runs.db_two_unique_ids.
  - simpl. left.
  - simpl. lia.
Defined.

Lemma create_admin_then_admin_login_witness :
  get_password_hash "r1" "ADMINBIO" = inr "$2b$ADMINBIO"
  /\ exists adm,
       adm ∈ users (get_db (create_admin "r1") db_two).2
       /\ User.email adm = "admin@biosphere.ru"
       /\ User.is_admin adm = true
       /\ User.name adm = "Admin"
       /\ User.phone adm = "0000000000"
       /\ get_db
            (admin_login ∅
               (OAuth2PasswordRequestForm.Build "admin@biosphere.ru"
                  "ADMINBIO") 1000)
            (get_db (create_admin "r1") db_two).2
          = (inr (token_for ∅ adm 1000), (get_db (create_admin "r1") db_two).2)
       /\ get_db
            (login ∅
               (OAuth2PasswordRequestForm.Build "admin@biosphere.ru"
                  "ADMINBIO") 1000)
            (get_db (create_admin "r1") db_two).2
          = (inl admins_use_admin_page, (get_db (create_admin "r1") db_two).2).
Proof.
  split; [reflexivity|].
  apply (create_admin_then_admin_login ∅ "r1" "$2b$ADMINBIO" 1000 db_two).
  reflexivity.
Defined.

Lemma create_admin_keeps_keys_unique_witness :
  unique_ids db_two /\ unique_emails db_two
  /\ unique_ids (get_db (create_admin "r1") db_two).2
  /\ unique_emails (get_db (create_admin "r1") db_two).2.
Proof.
  split; [exact Runs.db_two_unique_ids|].
  split; [exact Runs.db_two_unique_emails|].
  pose proof (create_admin_keeps_keys_unique "r1" db_two
                Runs.db_two_unique_ids Runs.db_two_unique_emails) as Hk.
  simpl in Hk. split; [apply Hk|apply Hk].
Defined.

Lemma create_admin_keeps_other_admins_witness :
  List.find User.is_admin (users db_admins) = Some bootstrap_admin
  /\ exists x',
       x' ∈ users (get_db (create_admin "r3") db_admins).2
       /\ User.id x' = 2
       /\ User.email x' = "admin@biosfera.ru"
       /\ User.is_admin x' = true.
Proof.
  split; [reflexivity|].
  apply (create_admin_keeps_other_admins "r3" db_admins bootstrap_admin
           (sentinel_admin 2)).
  - reflexivity.
  - simpl. right. left.
  - reflexivity.
  - discriminate.
Defined.

Lemma admin_routes_require_bearer_witness :
  post_admin_cleanup ∅ {| authorization := None |} 1000 (730 * day) db_full
  = (inl not_authenticated, db_full)
  /\ post_admin_cleanup ∅ {| authorization := Some "Basic abc" |} 1000
       (730 * day) db_full
     = (inl not_authenticated, db_full).
Proof.
  split.
  - apply (admin_routes_require_bearer ∅ frac_div frac_mul frac_round Py.str
             {| authorization := None |} 1000 (730 * day) db_full).
    exact I.
  - apply (admin_routes_require_bearer ∅ frac_div frac_mul frac_round Py.str
             {| authorization := Some "Basic abc" |} 1000 (730 * day)
             db_full).
    simpl. discriminate.
Defined.

Lemma admin_routes_refuse_non_admin_witness :
  unique_ids db_full /\ alice ∈ users db_full
  /\ User.is_admin alice = false
  /\ post_admin_cleanup ∅ (bearer (access_token (token_for ∅ alice 1000)))
       2000 (730 * day) db_full
     = (inl insufficient_rights, db_full).
Proof.
  split; [exact db_full_unique_ids|].
  split; [simpl; left|]. split; [reflexivity|].
  apply (admin_routes_refuse_non_admin ∅ frac_div frac_mul frac_round Py.str
           alice 1000 2000 (730 * day) db_full).
  - exact db_full_unique_ids.
  - simpl. left.
  - reflexivity.
  - lia.
Defined.

Lemma cleanup_removes_old_unanswered_witness :
  User.is_admin root = true
  /\ exists response db',
       get_db (cleanup_old_data root (730 * day)) db_full = (inr response, db')
       /\ reviews db'
          = List.filter (fun r => negb (expired_review (730 * day) r))
              (reviews db_full)
       /\ questions db'
          = List.filter (fun q => negb (expired_question (730 * day) q))
              (questions db_full)
       /\ users db' = users db_full
       /\ specialists db' = specialists db_full
       /\ deleted_reviews response
          = Z.of_nat (length (reviews db_full))
            - Z.of_nat (length (reviews db'))
       /\ deleted_questions response
          = Z.of_nat (length (questions db_full))
            - Z.of_nat (length (questions db'))
       /\ cleanup_status response = "success".
Proof.
  split; [reflexivity|].
  apply (cleanup_removes_old_unanswered root (730 * day) db_full).
  - reflexivity.
  - exact db_full_review_ids.
  - exact db_full_question_ids.
Defined.

Lemma cleanup_twice_witness :
  User.is_admin root = true
  /\ exists response,
       get_db (cleanup_old_data root (729 * day))
         (get_db (cleanup_old_data root (730 * day)) db_full).2
       = (inr response,
          (get_db (cleanup_old_data root (730 * day)) db_full).2)
       /\ deleted_reviews response = 0
       /\ deleted_questions response = 0.
Proof.
  split; [reflexivity|].
  apply (cleanup_twice root (730 * day) (729 * day) db_full).
  - reflexivity.
  - exact db_full_review_ids.
  - exact db_full_question_ids.
  - unfold day. lia.
Defined.

(** The cleanup on the sample store: the old review and the old
    question without reply go, the answered and the recent ones stay. *)
Example cleanup_run_sample :
  get_db (cleanup_old_data root (730 * day)) db_full
  = (inr {| cleanup_status := "success"; deleted_reviews := 1;
            deleted_questions := 1;
            cleanup_message :=
              "Удалено 1 старых отзывов и 1 старых вопросов" |},
     {| users := [alice; root];
        reviews := [review_answered; review_recent];
        questions := [question_recent];
        specialists := [specialist_named; specialist_blank] |}).
Proof. vm_compute. reflexivity. Qed.

Lemma statistics_sample :
  get_db
    (get_detailed_statistics frac_div frac_mul frac_round Py.str root
       (730 * day)) db_full
  = (inr stats_full, db_full).
Proof. reflexivity. Qed.

Lemma statistics_rating_distribution_witness :
  User.is_admin root = true
  /\ rating_distribution stats_full !! 5 = Some 1
  /\ rating_distribution stats_full !! 7 = None
  /\ default 0 (rating_distribution stats_full !! 1)
     + default 0 (rating_distribution stats_full !! 2)
     + default 0 (rating_distribution stats_full !! 3)
     + default 0 (rating_distribution stats_full !! 4)
     + default 0 (rating_distribution stats_full !! 5)
     = len (List.filter rated_1_to_5 (reviews db_full))
  /\ len (List.filter rated_1_to_5 (reviews db_full))
     <= total_reviews (overview stats_full).
Proof.
  pose proof (statistics_rating_distribution frac_div frac_mul frac_round
                Py.str root (730 * day) db_full db_full stats_full
                eq_refl statistics_sample) as (Hlook & Hsum & Hle).
  split; [reflexivity|].
  split; [exact (Hlook 5)|]. split; [exact (Hlook 7)|].
  split; [exact Hsum|exact Hle].
Defined.

Lemma statistics_recent_counts_nested_witness :
  User.is_admin root = true
  /\ 0 <= reviews_last_week (recent_activity stats_full)
     <= reviews_last_month (recent_activity stats_full)
  /\ reviews_last_month (recent_activity stats_full)
     <= total_reviews (overview stats_full).
Proof.
  pose proof (statistics_recent_counts_nested frac_div frac_mul frac_round
                Py.str root (730 * day) db_full db_full stats_full
                eq_refl statistics_sample) as (_ & Hw & Hm & _).
  split; [reflexivity|]. split; [exact Hw|exact Hm].
Defined.

Lemma statistics_specialist_counts_witness :
  User.is_admin root = true
  /\ specialists_by_position stats_full !! "Не указана" = Some 1
  /\ specialists_by_workplace stats_full !! "Clinic" = Some 1.
Proof.
  split; [reflexivity|].
  pose proof (statistics_specialist_counts frac_div frac_mul frac_round
                Py.str root (730 * day) db_full db_full stats_full
                "Не указана" eq_refl statistics_sample) as [Hp _].
  pose proof (statistics_specialist_counts frac_div frac_mul frac_round
                Py.str root (730 * day) db_full db_full stats_full
                "Clinic" eq_refl statistics_sample) as [_ Hw].
  split; [exact Hp|exact Hw].
Defined.

Lemma export_data_fails_on_users_witness :
  User.is_admin root = true
  /\ export_data frac_div frac_mul Py.str root (730 * day) db_full
     = inl (AttributeError "User" "created_at")
  /\ exists content,
       export_data frac_div frac_mul Py.str root (730 * day) empty_db
       = inr content.
Proof.
  split; [reflexivity|]. split.
  - apply (export_data_fails_on_users frac_div frac_mul Py.str root
             (730 * day) db_full eq_refl).
    discriminate.
  - apply (export_data_fails_on_users frac_div frac_mul Py.str root
             (730 * day) empty_db eq_refl).
    reflexivity.
Defined.

Lemma register_admin_only_once_witness :
  get_db (register_admin sentinel_request "r2") (with_users [alice])
  = (inr (sentinel_admin 2), with_users [alice; sentinel_admin 2])
  /\ get_db (register_admin sentinel_request "r5")
       (after_calls ∅ (with_users [alice; sentinel_admin 2])
          [CallCreateAdmin "r3"; CallRegister carol_request "r4";
           CallCleanup root 0])
     = (inl email_registered,
        after_calls ∅ (with_users [alice; sentinel_admin 2])
          [CallCreateAdmin "r3"; CallRegister carol_request "r4";
           CallCleanup root 0]).
Proof.
  split; [reflexivity|].
  apply (register_admin_only_once ∅ sentinel_request sentinel_request
           "r2" "r5" (with_users [alice])
           (with_users [alice; sentinel_admin 2]) (sentinel_admin 2)
           [CallCreateAdmin "r3"; CallRegister carol_request "r4";
            CallCleanup root 0]).
  reflexivity.
Defined.


Lemma export_route_never_succeeds_witness :
  get_admin_export frac_div frac_mul Py.str ∅
    (bearer (access_token (token_for ∅ root 1000))) 2000 (730 * day) db_full
  = inl (AttributeError "User" "created_at").
Proof.
  apply (proj2 (export_route_never_succeeds frac_div frac_mul Py.str ∅
                  (bearer (access_token (token_for ∅ root 1000)))
                  2000 (730 * day) db_full) root 1000).
  - exact db_full_unique_ids.
  - simpl. right. left.
  - reflexivity.
  - lia.
Defined.

(** A bcrypt handler that refuses every secret: the laws hold for it,
    no hash being produced. *)
Definition refusing_bcrypt : Bcrypt :=
  {| bcrypt_hash := fun _ _ => inl (HandlerError "PasswordValueError");
     bcrypt_verify := fun _ _ => inl (HandlerError "PasswordValueError");
     bcrypt_hash_identify := fun _ _ _ E => match E with end;
     bcrypt_verify_hash := fun _ _ _ E => match E with end |}.

(** With it the bootstrap script fails while hashing; the store, with
    the admin the script had already demoted in its session, is as
    before. *)
Example create_admin_rollback_sample :
  get_db (@create_admin refusing_bcrypt "r1") db_two = (inr tt, db_two).
Proof. reflexivity. Qed.

End MoreRuns.
